(** * tt.py: timer state and daily report, embedded and verified

    A shallow embedding of the timer core of [tt.py]: the duration policy
    ([get_formatted_duration], [round_seconds_to_15min]), the timer commands
    ([stop_current], [cmd_start], [cmd_note], [cmd_stop]) and the report
    aggregation ([cmd_report] with its helper [process_entry]); and of the
    commands around it: the shortcuts ([cmd_shortcut], and the shortcut
    branch of [cmd_start]), [cmd_add] and [cmd_reset].

    Modelling conventions.
    - Clock readings ([time.time()]) and the numbers computed from them are
      exact rationals ([Q]); Python's true division [/] is division in [Q]
      and [math.ceil] is [Qceiling].  Binary rounding of floats is not part
      of the model.
    - Python [int] is [Z]; [str] is [string] (a byte string, compared byte by
      byte as Python compares code points).
    - The session and history dicts have fixed keys and are records; a key
      the code reads with [.get(key, default)] is an [option] field.
    - Dicts used as maps ([summary], [tasks]) keep insertion order, which
      the report shows, so they are association lists with unique keys.
    - Every call of [time.time()] is an explicit argument of the function
      that makes it.
    - A command takes the file system ([World]) and returns the one it
      leaves, with what it printed.  [DATA_FILE] may be absent or unreadable
      ([load_json] then returns its default); writing it does not fail.
    - [str.lower] is a parameter [lower] of the functions that call it
      (the sort of the report, the shortcuts): a service of the language,
      of which only what it does to ASCII strings is ever assumed
      ([lowers_ascii]).  [cmd_reset] compares the lowered answer with
      ["y"], which the ASCII lowering decides as [str.lower] does.
    - [cmd_report] is embedded twice: as the function of the file and the
      clock that the proofs about its result use, and statement by
      statement as a program on the memory it works in ([cmd_report_run]),
      which is proved to compute that function.
    - [CONFIG_FILE] is a file system of its own ([ConfigWorld]).  What
      [input] returns is an argument of the command that asks;
      [str.strip] is a parameter of [cmd_add]. *)

From Stdlib Require Import ZArith QArith Qround Qminmax Lia.
From Stdlib Require Import List String Ascii Bool.
From Stdlib Require Import Sorted Permutation.
Import ListNotations.

Local Open Scope Z_scope.

(** ** Python primitives *)

Module Py.

(** Truth value of [None] or a [str]: only a non-empty string is true. *)
Definition truthy (s : option string) : bool :=
  match s with
  | Some (String _ _) => true
  | _ => false
  end.

(** [sep.join(l)] *)
Definition join (sep : string) (l : list string) : string :=
  String.concat sep l.

(** [c.lower()] for an ASCII character: the letters A-Z become a-z. *)
Definition lower_ascii (c : ascii) : ascii :=
  let n := N_of_ascii c in
  if ((65 <=? n) && (n <=? 90))%N then ascii_of_N (n + 32) else c.

(** [s.lower()] for a string [s] of ASCII characters.  On other strings
    this is not [str.lower], which lowers every cased letter: the bytes
    from 128 up are left as they are. *)
Fixpoint lower (s : string) : string :=
  match s with
  | EmptyString => EmptyString
  | String c s' => String (lower_ascii c) (lower s')
  end.

(** [s.isascii()] *)
Fixpoint isascii (s : string) : bool :=
  match s with
  | EmptyString => true
  | String c s' => (N_of_ascii c <? 128)%N && isascii s'
  end.

(** [a < b] on [float]/[int] values. *)
Definition Qltb (a b : Q) : bool := negb (Qle_bool b a).

(** An insertion-ordered [dict]. *)
Definition dict (K V : Type) : Type := list (K * V).

Section Dict.
Context {K V : Type}.
Variable eqb : K -> K -> bool.

(** [d.get(k)] *)
Fixpoint get (d : dict K V) (k : K) : option V :=
  match d with
  | [] => None
  | (k', v) :: d' => if eqb k' k then Some v else get d' k
  end.

(** [k in d] *)
Definition mem (d : dict K V) (k : K) : bool :=
  match get d k with Some _ => true | None => false end.

(** [d[k] = v]: an existing key keeps its place, a new one goes last. *)
Fixpoint set (d : dict K V) (k : K) (v : V) : dict K V :=
  match d with
  | [] => [(k, v)]
  | (k', v') :: d' =>
      if eqb k' k then (k', v) :: d' else (k', v') :: set d' k v
  end.

(** [d.keys()] *)
Definition keys (d : dict K V) : list K := map fst d.
End Dict.

(** [sorted(l, key=key)] where keys are compared with [lt]: a stable sort
    (an element goes before the first one whose key is not smaller). *)
Section Sorted.
Context {A B : Type}.
Variable lt : B -> B -> bool.
Variable key : A -> B.

Fixpoint insert (x : A) (l : list A) : list A :=
  match l with
  | [] => [x]
  | y :: l' =>
      if lt (key y) (key x) then y :: insert x l' else x :: y :: l'
  end.

Fixpoint sorted (l : list A) : list A :=
  match l with
  | [] => []
  | x :: l' => insert x (sorted l')
  end.
End Sorted.

End Py.

(** What is assumed of [str.lower], where anything is: on a string of
    ASCII characters it is the ASCII lowering. *)
Definition lowers_ascii (lower : string -> string) : Prop :=
  forall s, Py.isascii s = true -> lower s = Py.lower s.

(** ** Duration policy *)

(** [get_formatted_duration(seconds)]: [(hours, minutes)], on an [int]. *)
Definition get_formatted_duration (seconds : Z) : Z * Z :=
  let (m, s) := (seconds / 60, seconds mod 60) in
  let (h, m) := (m / 60, m mod 60) in
  (h, m).

(** [round_seconds_to_15min(seconds)] *)
Definition round_seconds_to_15min (seconds : Q) : Z :=
  if Qle_bool seconds 0 then 0
  else
    let minutes := (seconds / 60)%Q in
    let rounded_minutes := Qceiling (minutes / 15) * 15 in
    rounded_minutes * 60.

(** ** Data model *)

(** [data["current"]]: the running timer.  [notes] is read with
    [c.get("notes", [])], so the key may be missing. *)
Record Session := {
  customer : string;
  project : string;
  start_timestamp : Q;
  notes : option (list string)
}.

(** An element of [data["history"]].  The report reads its notes with
    [entry.get("notes", [])]. *)
Record HistoryEntry := {
  h_customer : string;
  h_project : string;
  duration_seconds : Z;
  raw_seconds : Q;
  h_notes : option (list string);
  start_str : string;
  end_str : string
}.

(** The contents of [DATA_FILE]. *)
Record Data := {
  current : option Session;
  history : list HistoryEntry
}.

(** [{"current": None, "history": []}] *)
Definition empty_data : Data := {| current := None; history := [] |}.

(** A number of seconds without a fractional part. *)
Definition whole (q : Q) : Prop := exists z : Z, (q == inject_Z z)%Q.

(** What a command prints. *)
Inductive message :=
| Stopped (c p : string) (h m : Z)   (* Stopped: c - p (Billed: {h}h {m}m) *)
| CancelledOrInvalidInput            (* Cancelled or Invalid Input. *)
| Started (c p : string) (note : option string)
| NoTimerRunningError                (* cmd_note: No timer running. *)
| NoteCannotBeEmpty                  (* Note cannot be empty. *)
| NoteAdded (new_note : string)
| NoTimerRunning.                    (* cmd_stop: No timer running. *)

(** The file system as the commands see it: [DATA_FILE], absent when the
    file is missing or unreadable. *)
Record World := { data_file : option Data }.

(** [load_json(DATA_FILE, default)] *)
Definition load_json (w : World) (default : Data) : Data :=
  match data_file w with
  | Some d => d
  | None => default
  end.

(** [save_json(DATA_FILE, data)] *)
Definition save_json (w : World) (data : Data) : World :=
  {| data_file := Some data |}.

(** ** Timer logic *)

Section Timer.

(** [time.strftime("%H:%M", time.localtime(t))], a service of the host. *)
Variable localtime_hhmm : Q -> string.

(** [stop_current(data, verbose)], where [now] is the reading of
    [time.time()].  Returns the mutated [data], what was printed, and the
    function's result. *)
Definition stop_current (data : Data) (now : Q) (verbose : bool)
  : Data * list message * bool :=
  match current data with
  | Some c =>
      let start_time := start_timestamp c in
      let end_time := now in
      let raw_duration := (end_time - start_time)%Q in
      let raw_duration := if Py.Qltb raw_duration 0 then 0%Q else raw_duration in
      let billed_duration := round_seconds_to_15min raw_duration in
      let notes := match notes c with Some l => l | None => [] end in
      let entry := {| h_customer := customer c;
                      h_project := project c;
                      duration_seconds := billed_duration;
                      raw_seconds := raw_duration;
                      h_notes := Some notes;
                      start_str := localtime_hhmm start_time;
                      end_str := localtime_hhmm end_time |} in
      let data := {| current := None; history := history data ++ [entry] |} in
      let (h, m) := get_formatted_duration billed_duration in
      let out := if verbose then [Stopped (customer c) (project c) h m] else [] in
      (data, out, true)
  | None => (data, [], false)
  end.

(** What lines 353-388 of [cmd_start] leave behind: the shortcut, the
    arguments or the prompts gave [customer], [project] and [note] (each a
    [str] or [None]), or the function returned or exited on the way (a
    usage error, an unknown shortcut, a cancelled prompt). *)
Inductive resolution :=
| Resolved (customer project note : option string)
| Abandoned.

(** [cmd_start(args)]: [now_stop] is the clock reading inside
    [stop_current], [now_start] the one stored in the new session. *)
Definition cmd_start (w : World) (now_stop now_start : Q) (r : resolution)
  : World * list message :=
  let data := load_json w empty_data in
  let '(data, out) :=
    match current data with
    | Some _ => fst (stop_current data now_stop true)
    | None => (data, [])
    end in
  match r with
  | Abandoned => (w, out)
  | Resolved customer project note =>
      (* [if not customer or not project]: [None] and [""] are refused *)
      match customer, project with
      | Some (String _ _ as customer), Some (String _ _ as project) =>
          let notes_list := if Py.truthy note then
                              match note with Some n => [n] | None => [] end
                            else [] in
          let data := {| current := Some {| customer := customer;
                                            project := project;
                                            start_timestamp := now_start;
                                            notes := Some notes_list |};
                         history := history data |} in
          (save_json w data,
           out ++ [Started customer project
                     (if Py.truthy note then note else None)])
      | _, _ => (w, out ++ [CancelledOrInvalidInput])
      end
  end.

(** [cmd_stop()] *)
Definition cmd_stop (w : World) (now : Q) : World * list message :=
  let data := load_json w empty_data in
  let '(data, out, stopped) := stop_current data now true in
  if stopped then (save_json w data, out)
  else (w, out ++ [NoTimerRunning]).

End Timer.

(** [cmd_note(args)] *)
Definition cmd_note (w : World) (args : list string) : World * list message :=
  let data := load_json w empty_data in
  match current data with
  | None => (w, [NoTimerRunningError])
  | Some c =>
      match args with
      | [] => (w, [NoteCannotBeEmpty])
      | _ :: _ =>
          let new_note := Py.join " " args in
          let c_notes := match notes c with Some l => l | None => [] end in
          let c := {| customer := customer c;
                      project := project c;
                      start_timestamp := start_timestamp c;
                      notes := Some (c_notes ++ [new_note]) |} in
          let data := {| current := Some c; history := history data |} in
          (save_json w data, [NoteAdded new_note])
      end
  end.

(** ** Report *)

(** [summary[key]]: [{"total_seconds": ..., "tasks": {...}}] *)
Record Group := {
  total_seconds : Z;
  tasks : Py.dict string Z
}.

Definition Key : Type := string * string.

Definition key_eqb (a b : Key) : bool :=
  (fst a =? fst b)%string && (snd a =? snd b)%string.

Definition Summary : Type := Py.dict Key Group.

(** The task name of an entry: [", ".join(notes_list)] or the default. *)
Definition task_name_of (notes_list : list string) : string :=
  match notes_list with
  | [] => "No Description"%string
  | _ :: _ => Py.join ", " notes_list
  end.

(** [process_entry(cust, proj, seconds, notes_list)], on the [summary] of the
    enclosing [cmd_report].  The group at [key] is the one already there or
    the fresh one the code stores first; its two updates are written back
    at [key]. *)
Definition process_entry (summary : Summary) (cust proj : string)
    (seconds : Z) (notes_list : list string) : Summary :=
  let key := (cust, proj) in
  let g := match Py.get key_eqb summary key with
           | Some g => g
           | None => {| total_seconds := 0; tasks := [] |}
           end in
  let total := total_seconds g + seconds in
  let task_name := task_name_of notes_list in
  let current_task_time :=
    match Py.get String.eqb (tasks g) task_name with
    | Some t => t
    | None => 0
    end in
  Py.set key_eqb summary key
    {| total_seconds := total;
       tasks := Py.set String.eqb (tasks g) task_name
                  (current_task_time + seconds) |}.

(** [a < b] on the tuples the sort key returns. *)
Definition tuple_ltb (a b : string * string) : bool :=
  if (fst a =? fst b)%string then String.ltb (snd a) (snd b)
  else String.ltb (fst a) (fst b).

(** [lambda x: (x[0][0].lower(), x[0][1].lower())] *)
Definition sort_key (lower : string -> string) (x : Key * Group)
  : string * string :=
  (lower (fst (fst x)), lower (snd (fst x))).

(** What [cmd_report] shows: the groups in printing order, the day's total
    and whether the running-timer warning is printed. *)
Record Report := {
  sorted_items : list (Key * Group);
  total_day_seconds : Z;
  includes_running : bool
}.

(** The history loop of [cmd_report]. *)
Definition process_history (summary : Summary) (h : list HistoryEntry)
  : Summary :=
  fold_left
    (fun summary entry =>
       process_entry summary (h_customer entry) (h_project entry)
         (duration_seconds entry)
         (match h_notes entry with Some l => l | None => [] end))
    h summary.

(** The summary [cmd_report] builds from [data] when the clock reads
    [now]. *)
Definition summarize (data : Data) (now : Q) : Summary :=
  let summary := process_history [] (history data) in
  match current data with
  | Some c =>
      let raw := (now - start_timestamp c)%Q in
      let billed := round_seconds_to_15min raw in
      process_entry summary (customer c) (project c) billed
        (match notes c with Some l => l | None => [] end)
  | None => summary
  end.

(** [cmd_report(copy_mode)], up to the rendering of the lines: the report
    it prints (and copies), and the file system it leaves. *)
Definition cmd_report (lower : string -> string) (w : World) (now : Q)
  : World * Report :=
  let data := load_json w empty_data in
  let summary := summarize data now in
  let sorted_items := Py.sorted tuple_ltb (sort_key lower) summary in
  let total_day_seconds :=
    fold_left (fun total item => total + total_seconds (snd item))
      sorted_items 0 in
  (w, {| sorted_items := sorted_items;
         total_day_seconds := total_day_seconds;
         includes_running :=
           match current data with Some _ => true | None => false end |}).

(** ** The report as a program

    [cmd_report] once more, statement by statement, on the memory it works
    in.  Nothing is decided here about what a statement may touch: every
    statement reads and leaves a whole [Store], and can fail. *)

(** The file system, and the objects bound to [data] and [summary]. *)
Record Store := {
  st_world : World;
  st_data : Data;
  st_summary : Summary
}.

(** A statement: from a memory to its value and the memory it leaves;
    [None] is an exception. *)
Definition Run (A : Type) : Type := Store -> option (A * Store).

Definition ret {A : Type} (a : A) : Run A := fun st => Some (a, st).

Definition bind {A B : Type} (m : Run A) (k : A -> Run B) : Run B :=
  fun st =>
    match m st with
    | Some (a, st') => k a st'
    | None => None
    end.

Declare Scope run_scope.
Delimit Scope run_scope with run.
Notation "x <- m ;; k" := (bind m (fun x => k))
  (at level 61, m at next level, right associativity) : run_scope.
Notation "m ;; k" := (bind m (fun _ => k))
  (at level 61, right associativity) : run_scope.

(** [data = load_json(DATA_FILE, default)] *)
Definition load_data (default : Data) : Run unit :=
  fun st =>
    Some (tt, {| st_world := st_world st;
                 st_data := load_json (st_world st) default;
                 st_summary := st_summary st |}).

(** [save_json(DATA_FILE, data)] *)
Definition save_data : Run unit :=
  fun st =>
    Some (tt, {| st_world := save_json (st_world st) (st_data st);
                 st_data := st_data st;
                 st_summary := st_summary st |}).

(** [data] *)
Definition read_data : Run Data := fun st => Some (st_data st, st).

(** [data["history"].append(entry)] *)
Definition history_append (entry : HistoryEntry) : Run unit :=
  fun st =>
    Some (tt, {| st_world := st_world st;
                 st_data := {| current := current (st_data st);
                               history := history (st_data st) ++ [entry] |};
                 st_summary := st_summary st |}).

(** [data["current"] = c] *)
Definition current_assign (c : option Session) : Run unit :=
  fun st =>
    Some (tt, {| st_world := st_world st;
                 st_data := {| current := c;
                               history := history (st_data st) |};
                 st_summary := st_summary st |}).

(** [summary = {}] *)
Definition new_summary : Run unit :=
  fun st =>
    Some (tt, {| st_world := st_world st;
                 st_data := st_data st;
                 st_summary := [] |}).

(** [summary] *)
Definition read_summary : Run Summary := fun st => Some (st_summary st, st).

(** [summary[key]]: a [KeyError] when there is no such key. *)
Definition summary_getitem (key : Key) : Run Group :=
  fun st =>
    match Py.get key_eqb (st_summary st) key with
    | Some g => Some (g, st)
    | None => None
    end.

(** [summary[key] = g]; also what an update in place of the group at
    [key] comes to, [g] being the group as updated. *)
Definition summary_setitem (key : Key) (g : Group) : Run unit :=
  fun st =>
    Some (tt, {| st_world := st_world st;
                 st_data := st_data st;
                 st_summary := Py.set key_eqb (st_summary st) key g |}).

(** [for x in l: body(x)] *)
Fixpoint for_each {A : Type} (l : list A) (body : A -> Run unit) : Run unit :=
  match l with
  | [] => ret tt
  | x :: l' => (body x ;; for_each l' body)%run
  end.

(** [process_entry(cust, proj, seconds, notes_list)], as [cmd_report]
    defines it: four statements on [summary]. *)
Definition process_entry_run (cust proj : string) (seconds : Z)
    (notes_list : list string) : Run unit :=
  (let key := (cust, proj) in
   summary <- read_summary ;;
   (if Py.mem key_eqb summary key then ret tt
    else summary_setitem key {| total_seconds := 0; tasks := [] |}) ;;
   g <- summary_getitem key ;;
   summary_setitem key {| total_seconds := total_seconds g + seconds;
                          tasks := tasks g |} ;;
   let task_name := task_name_of notes_list in
   g <- summary_getitem key ;;
   let current_task_time :=
     match Py.get String.eqb (tasks g) task_name with
     | Some t => t
     | None => 0
     end in
   g <- summary_getitem key ;;
   summary_setitem key
     {| total_seconds := total_seconds g;
        tasks := Py.set String.eqb (tasks g) task_name
                   (current_task_time + seconds) |})%run.

(** [cmd_report(copy_mode)], up to the rendering of the lines; [now] is
    the reading of [time.time()]. *)
Definition cmd_report_run (lower : string -> string) (now : Q) : Run Report :=
  (load_data empty_data ;;
   new_summary ;;
   data <- read_data ;;
   for_each (history data)
     (fun entry =>
        process_entry_run (h_customer entry) (h_project entry)
          (duration_seconds entry)
          (match h_notes entry with Some l => l | None => [] end)) ;;
   data <- read_data ;;
   match current data with
   | Some c =>
       let raw := (now - start_timestamp c)%Q in
       let billed := round_seconds_to_15min raw in
       process_entry_run (customer c) (project c) billed
         (match notes c with Some l => l | None => [] end)
   | None => ret tt
   end ;;
   summary <- read_summary ;;
   let sorted_items := Py.sorted tuple_ltb (sort_key lower) summary in
   let total_day_seconds :=
     fold_left (fun total item => total + total_seconds (snd item))
       sorted_items 0 in
   data <- read_data ;;
   ret {| sorted_items := sorted_items;
          total_day_seconds := total_day_seconds;
          includes_running :=
            match current data with Some _ => true | None => false end |})%run.

(** [stop_current(data, verbose)] and [cmd_stop()] in the same terms:
    these two do change [data], and the file. *)
Definition stop_current_run (localtime_hhmm : Q -> string) (now : Q)
    (verbose : bool) : Run (list message * bool) :=
  (data <- read_data ;;
   match current data with
   | Some c =>
       let start_time := start_timestamp c in
       let end_time := now in
       let raw_duration := (end_time - start_time)%Q in
       let raw_duration :=
         if Py.Qltb raw_duration 0 then 0%Q else raw_duration in
       let billed_duration := round_seconds_to_15min raw_duration in
       let notes := match notes c with Some l => l | None => [] end in
       let entry := {| h_customer := customer c;
                       h_project := project c;
                       duration_seconds := billed_duration;
                       raw_seconds := raw_duration;
                       h_notes := Some notes;
                       start_str := localtime_hhmm start_time;
                       end_str := localtime_hhmm end_time |} in
       history_append entry ;;
       current_assign None ;;
       let (h, m) := get_formatted_duration billed_duration in
       let out := if verbose then [Stopped (customer c) (project c) h m]
                  else [] in
       ret (out, true)
   | None => ret ([], false)
   end)%run.

Definition cmd_stop_run (localtime_hhmm : Q -> string) (now : Q)
  : Run (list message) :=
  (load_data empty_data ;;
   r <- stop_current_run localtime_hhmm now true ;;
   if snd r then save_data ;; ret (fst r)
   else ret (fst r ++ [NoTimerRunning]))%run.

(** ** The report: what it is to show *)

(** The entries of a history, as the report sees them. *)
Definition entry_key (e : HistoryEntry) : Key := (h_customer e, h_project e).

Definition entry_notes (e : HistoryEntry) : list string :=
  match h_notes e with Some l => l | None => [] end.

Definition entry_label (e : HistoryEntry) : string :=
  task_name_of (entry_notes e).

Definition sum_durations (l : list HistoryEntry) : Z :=
  fold_right (fun e acc => duration_seconds e + acc) 0 l.

(** The entries of [h] for the pair [k], in order. *)
Definition group_entries (k : Key) (h : list HistoryEntry) : list HistoryEntry :=
  filter (fun e => key_eqb (entry_key e) k) h.

(** Those of them whose task label is [label]. *)
Definition bucket_entries (k : Key) (label : string) (h : list HistoryEntry)
  : list HistoryEntry :=
  filter (fun e => (entry_label e =? label)%string) (group_entries k h).

(** What [summary] holds once the entries [h] have been processed. *)
Definition summarizes (summary : Summary) (h : list HistoryEntry) : Prop :=
  NoDup (Py.keys summary) /\
  (forall k, Py.get key_eqb summary k = None <-> group_entries k h = []) /\
  (forall k g, Py.get key_eqb summary k = Some g ->
     total_seconds g = sum_durations (group_entries k h) /\
     NoDup (Py.keys (tasks g)) /\
     (forall label, Py.get String.eqb (tasks g) label = None
                    <-> bucket_entries k label h = []) /\
     (forall label t, Py.get String.eqb (tasks g) label = Some t ->
                      t = sum_durations (bucket_entries k label h))).

(** The running session as the entry the report folds: only the pair, the
    billed duration and the notes are read. *)
Definition running_entry (c : Session) (now : Q) : HistoryEntry :=
  {| h_customer := customer c;
     h_project := project c;
     duration_seconds := round_seconds_to_15min (now - start_timestamp c);
     raw_seconds := (now - start_timestamp c)%Q;
     h_notes := notes c;
     start_str := "";
     end_str := "" |}.

(** Everything a report at [now] accounts for, in processing order. *)
Definition report_entries (data : Data) (now : Q) : list HistoryEntry :=
  history data
    ++ match current data with
       | Some c => [running_entry c now]
       | None => []
       end.

(** [a <= b] on pairs of strings: lexicographic. *)
Definition tuple_le (a b : string * string) : Prop :=
  String.ltb (fst a) (fst b) = true
  \/ (fst a = fst b /\ String.leb (snd a) (snd b) = true).

(** A (customer, project) pair with the case of its letters dropped. *)
Definition lowered (lower : string -> string) (k : Key) : string * string :=
  (lower (fst k), lower (snd k)).

(** The order in which a report is to list its groups: ascending by
    lower-cased customer, then by lower-cased project. *)
Definition group_le (lower : string -> string) (x y : Key * Group) : Prop :=
  tuple_le (lowered lower (fst x)) (lowered lower (fst y)).

(** ** Sample stores *)

(** [localtime_hhmm] of a host whose local time is UTC. *)
Definition two_digits (n : Z) : string :=
  String (ascii_of_N (48 + Z.to_N (n / 10)))
    (String (ascii_of_N (48 + Z.to_N (n mod 10))) "").

Definition utc_hhmm (t : Q) : string :=
  let s := Qfloor t in
  (two_digits ((s / 3600) mod 24) ++ ":" ++ two_digits ((s / 60) mod 60))%string.

(** The running timer of [test_stop_current_negative_duration]. *)
Definition session_2000 : Session :=
  {| customer := "Test"; project := "Proj";
     start_timestamp := 2000; notes := Some [] |}.

Definition data_2000 : Data :=
  {| current := Some session_2000; history := [] |}.

(** A running timer with one note, started at 1000. *)
Definition session_1000 : Session :=
  {| customer := "TestCust"; project := "TestProj";
     start_timestamp := 1000; notes := Some ["First note"%string] |}.

Definition data_1000 : Data :=
  {| current := Some session_1000; history := [] |}.

(** The running timer of [test_cmd_note_empty]: no ["notes"] key. *)
Definition session_bare : Session :=
  {| customer := "Test"; project := "Proj";
     start_timestamp := 100; notes := None |}.

Definition data_bare : Data :=
  {| current := Some session_bare; history := [] |}.

(** ** Stores as the commands keep them *)

(** A billed duration: a non-negative number of whole quarters of an hour. *)
Definition billed (d : Z) : Prop := 0 <= d /\ (900 | d).

(** Every committed entry carries a billed duration. *)
Definition well_billed (data : Data) : Prop :=
  Forall (fun e => billed (duration_seconds e)) (history data).

(** The history a command finds in, or leaves in, [DATA_FILE]. *)
Definition history_of (w : World) : list HistoryEntry :=
  history (load_json w empty_data).

(** The running timer a command finds in, or leaves in, [DATA_FILE]. *)
Definition current_of (w : World) : option Session :=
  current (load_json w empty_data).

(** What [cmd_start] requires of the outcome of the resolution to go on:
    it did not return on the way, and [customer] and [project] are true. *)
Definition start_accepts (r : resolution) : bool :=
  match r with
  | Resolved customer project _ => Py.truthy customer && Py.truthy project
  | Abandoned => false
  end.


(** A day with one committed entry and a running timer. *)
Definition entry_1800 : HistoryEntry :=
  {| h_customer := "Acme"; h_project := "Web";
     duration_seconds := 1800; raw_seconds := 1000;
     h_notes := Some ["Design"%string];
     start_str := "09:00"; end_str := "09:17" |}.

Definition data_day : Data :=
  {| current := Some session_1000; history := [entry_1800] |}.
(** ** Sums and orders of a report *)

(** The seconds of the task buckets of a group, added up. *)
Definition tasks_sum (t : Py.dict string Z) : Z :=
  fold_right (fun kv acc => snd kv + acc) 0 t.

(** The totals of a list of groups, added up. *)
Definition totals_sum (items : list (Key * Group)) : Z :=
  fold_right (fun item acc => total_seconds (snd item) + acc) 0 items.

(** The values of a dict, measured by [f] and added up. *)
Definition dict_sum {K V : Type} (f : V -> Z) (d : Py.dict K V) : Z :=
  fold_right (fun kv acc => f (snd kv) + acc) 0 d.

(** Every group holds the sum of its buckets. *)
Definition groups_add_up (summary : Summary) : Prop :=
  forall k g, In (k, g) summary -> total_seconds g = tasks_sum (tasks g).

(** The elements of a list in the order of their first occurrence. *)
Fixpoint first_seen {K : Type} (eqb : K -> K -> bool) (l : list K) : list K :=
  match l with
  | [] => []
  | x :: l' => x :: filter (fun y => negb (eqb x y)) (first_seen eqb l')
  end.

(** Equality of the tuples the sort key returns. *)
Definition tuple_eqb (a b : string * string) : bool :=
  (fst a =? fst b)%string && (snd a =? snd b)%string.


(** The keys of a summary, and the labels of its groups, are in the order
    in which the entries brought them. *)
Definition in_first_seen_order (summary : Summary) (h : list HistoryEntry)
  : Prop :=
  Py.keys summary = first_seen key_eqb (map entry_key h) /\
  (forall k g, Py.get key_eqb summary k = Some g ->
     Py.keys (tasks g)
     = first_seen String.eqb (map entry_label (group_entries k h))).


(** ** Configuration: shortcuts *)

(** A value of [config["shortcuts"]].  The note is read with
    [data.get("note", "")], so the key may be missing. *)
Record Shortcut := {
  s_customer : string;
  s_project : string;
  s_note : option string
}.

(** An element of [config["customers"]]. *)
Record Customer := {
  c_name : string;
  c_projects : list string
}.

(** The contents of [CONFIG_FILE].  The shortcuts are read with
    [config.get("shortcuts", {})]: a file written before there were
    shortcuts has no such key. *)
Record Config := {
  customers : list Customer;
  shortcuts : option (Py.dict string Shortcut)
}.

(** [{"customers": [], "shortcuts": {}}] *)
Definition empty_config : Config := {| customers := []; shortcuts := Some [] |}.

(** [CONFIG_FILE], absent when the file is missing or unreadable. *)
Record ConfigWorld := { config_file : option Config }.

(** [load_json(CONFIG_FILE, default)] *)
Definition load_config (cw : ConfigWorld) (default : Config) : Config :=
  match config_file cw with
  | Some c => c
  | None => default
  end.

(** [save_json(CONFIG_FILE, config)] *)
Definition save_config (cw : ConfigWorld) (config : Config) : ConfigWorld :=
  {| config_file := Some config |}.

(** [del d[k]], for a key that is in [d]. *)
Definition dict_del {K V : Type} (eqb : K -> K -> bool) (d : Py.dict K V)
    (k : K) : Py.dict K V :=
  filter (fun kv => negb (eqb (fst kv) k)) d.

(** [config.get("shortcuts", {})] *)
Definition shortcuts_of (config : Config) : Py.dict string Shortcut :=
  match shortcuts config with
  | Some d => d
  | None => []
  end.

(** What [cmd_shortcut] and the shortcut branch of [cmd_start] print. *)
Inductive shortcut_message :=
| CompletionLine (name : string)             (* @{name} *)
| PickLine (name customer project note : string)
| NoShortcutsDefined                         (* No shortcuts defined. ... *)
| ShortcutsHeader                            (* --- SHORTCUTS --- *)
| ShortcutLine (name customer project : string) (note : option string)
| ShortcutsTotal (n : nat)                   (* Total: {n} shortcut(s) ... *)
| UsageShortcutAdd
| Overwriting (name : string)
| ShortcutCreated (name : string)
| UsageShortcutDelete
| ShortcutDeleted (name : string)
| ShortcutNotFound (name : string)
| UnknownAction
| UsageStartShortcut                         (* Usage: tt start -s ... *)
| UsingShortcut (name : string).

(** [cmd_shortcut(args)] *)
Definition cmd_shortcut (lower : string -> string) (cw : ConfigWorld)
    (args : list string) : ConfigWorld * list shortcut_message :=
  let config := load_config cw empty_config in
  let listing :=
    let shortcuts := shortcuts_of config in
    match shortcuts with
    | [] => (cw, [NoShortcutsDefined])
    | _ :: _ =>
        (cw,
         [ShortcutsHeader]
           ++ map (fun item : string * Shortcut =>
                     let (name, data) := item in
                     ShortcutLine name (s_customer data) (s_project data)
                       (if Py.truthy (s_note data) then s_note data else None))
                (Py.sorted String.ltb fst shortcuts)
           ++ [ShortcutsTotal (List.length shortcuts)])
    end in
  match args with
  | [] => listing
  | arg0 :: rest =>
      if (arg0 =? "--complete")%string then
        let shortcuts := shortcuts_of config in
        (cw, map CompletionLine
               (Py.sorted String.ltb (fun name => name) (Py.keys shortcuts)))
      else if (arg0 =? "pick")%string then
        let shortcuts := shortcuts_of config in
        (cw, map (fun item : string * Shortcut =>
                    let (name, data) := item in
                    PickLine name (s_customer data) (s_project data)
                      (match s_note data with Some n => n | None => "" end))
               (Py.sorted String.ltb fst shortcuts))
      else if (arg0 =? "list")%string then listing
      else
        let action := lower arg0 in
        if (action =? "add")%string then
          match rest with
          | name :: customer :: project :: words =>
              let name := lower name in
              let note := match words with
                          | [] => ""%string
                          | _ :: _ => Py.join " " words
                          end in
              let shortcuts := shortcuts_of config in
              let out := if Py.mem String.eqb shortcuts name
                         then [Overwriting name] else [] in
              let shortcuts :=
                Py.set String.eqb shortcuts name
                  {| s_customer := customer;
                     s_project := project;
                     s_note := Some note |} in
              let config := {| customers := customers config;
                               shortcuts := Some shortcuts |} in
              (save_config cw config, out ++ [ShortcutCreated name])
          | _ => (cw, [UsageShortcutAdd])
          end
        else if (action =? "delete")%string || (action =? "remove")%string
                || (action =? "rm")%string then
          match rest with
          | [] => (cw, [UsageShortcutDelete])
          | name :: _ =>
              let name := lower name in
              let shortcuts := shortcuts_of config in
              if Py.mem String.eqb shortcuts name then
                (* [shortcuts] is [config["shortcuts"]] itself *)
                let config := {| customers := customers config;
                                 shortcuts :=
                                   Some (dict_del String.eqb shortcuts name) |} in
                (save_config cw config, [ShortcutDeleted name])
              else (cw, [ShortcutNotFound name])
          end
        else (cw, [UnknownAction])
  end.

(** [s.startswith("@")] *)
Definition startswith_at (s : string) : bool :=
  match s with
  | String c _ => (c =? "@")%char
  | EmptyString => false
  end.

(** [s[1:]] *)
Definition tail_of (s : string) : string :=
  match s with
  | String _ s' => s'
  | EmptyString => EmptyString
  end.

(** The note of a shortcut with the words given after it:
    [f"{note}, {extra_note}" if note else extra_note] when there are
    words. *)
Definition combine_notes (note extra_note : string) : string :=
  if Py.truthy (Some extra_note) then
    if Py.truthy (Some note) then (note ++ ", " ++ extra_note)%string
    else extra_note
  else note.

(** Lines 353-384 of [cmd_start]: the arguments [-s name ...] or
    [@name ...] resolved through the shortcuts of [CONFIG_FILE].  [None]
    when the arguments are not of that form (the normal flow). *)
Definition resolve_shortcut (lower : string -> string) (cw : ConfigWorld)
    (args : list string) : option (resolution * list shortcut_message) :=
  match args with
  | [] => None
  | arg0 :: rest =>
      if (arg0 =? "-s")%string || startswith_at arg0 then
        let config := load_config cw empty_config in
        let shortcuts := shortcuts_of config in
        let named :=
          if (arg0 =? "-s")%string then
            match rest with
            | [] => None
            | arg1 :: words =>
                Some (lower arg1,
                      match words with
                      | [] => ""%string
                      | _ :: _ => Py.join " " words
                      end)
            end
          else
            Some (lower (tail_of arg0),
                  match rest with
                  | [] => ""%string
                  | _ :: _ => Py.join " " rest
                  end) in
        match named with
        | None => Some (Abandoned, [UsageStartShortcut])
        | Some (shortcut_name, extra_note) =>
            match Py.get String.eqb shortcuts shortcut_name with
            | None => Some (Abandoned, [ShortcutNotFound shortcut_name])
            | Some shortcut =>
                let customer := s_customer shortcut in
                let project := s_project shortcut in
                let note := match s_note shortcut with
                            | Some n => n
                            | None => ""%string
                            end in
                let note := combine_notes note extra_note in
                Some (Resolved (Some customer) (Some project) (Some note),
                      [UsingShortcut shortcut_name])
            end
        end
      else None
  end.


(** ** Reset *)

Inductive reset_message :=
| ResetWarning        (* WARNING: This will delete all time entries ... *)
| DailyDataCleared
| ResetCancelled.

(** [cmd_reset()], where [answer] is what [input] returned.  The answer is
    lowered only to be compared with ["y"]; [y] and [Y] are the only
    strings that [str.lower] takes there, and the ASCII lowering takes
    them and no other there too. *)
Definition cmd_reset (w : World) (answer : string)
  : World * list reset_message :=
  let choice := Py.lower answer in
  if (choice =? "y")%string then
    ({| data_file := None |}, [ResetWarning; DailyDataCleared])
  else (w, [ResetWarning; ResetCancelled]).

(** ** Configuration: customers and projects *)

(** [{"customers": []}] *)
Definition empty_customers : Config := {| customers := []; shortcuts := None |}.

(** What [cmd_add] prints. *)
Inductive add_message :=
| AddHeader                          (* --- ADD NEW ENTRY --- *)
| CustomerNameCannotBeEmpty
| CreatedCustomer (cust_name : string)
| AddedProject (proj : string)
| AddSaved.

Section Add.

(** [s.strip()], a service of the language. *)
Variable strip : string -> string.

(** The [while True] loop of [cmd_add] over the answers to its prompt;
    [None] when the answers end before a blank one ([input] raises
    [EOFError]). *)
Fixpoint add_projects (projects : list string) (answers : list string)
  : option (list string * list add_message) :=
  match answers with
  | [] => None
  | answer :: answers' =>
      match strip answer with
      | EmptyString => Some (projects, [])
      | String _ _ as proj =>
          if existsb (String.eqb proj) projects then
            add_projects projects answers'
          else
            match add_projects (projects ++ [proj]) answers' with
            | Some (projects', out) => Some (projects', AddedProject proj :: out)
            | None => None
            end
      end
  end.

(** The customers once the projects of [customer], the first of that
    name, have become [projects]: [customer] is an element of the list,
    changed in place. *)
Fixpoint set_projects (custs : list Customer) (cust_name : string)
    (projects : list string) : list Customer :=
  match custs with
  | [] => []
  | c :: custs' =>
      if (c_name c =? cust_name)%string then
        {| c_name := c_name c; c_projects := projects |} :: custs'
      else c :: set_projects custs' cust_name projects
  end.

(** [cmd_add()], where [answer] and [answers] are what [input] returned
    for the customer and for the projects. *)
Definition cmd_add (cw : ConfigWorld) (answer : string) (answers : list string)
  : option (ConfigWorld * list add_message) :=
  let config := load_config cw empty_customers in
  match strip answer with
  | EmptyString => Some (cw, [AddHeader; CustomerNameCannotBeEmpty])
  | String _ _ as cust_name =>
      let customer :=
        find (fun c => (c_name c =? cust_name)%string) (customers config) in
      let '(custs, customer, out) :=
        match customer with
        | Some c => (customers config, c, [])
        | None =>
            let c := {| c_name := cust_name; c_projects := [] |} in
            (customers config ++ [c], c, [CreatedCustomer cust_name])
        end in
      match add_projects (c_projects customer) answers with
      | None => None
      | Some (projects, added) =>
          let config :=
            {| customers := set_projects custs cust_name projects;
               shortcuts := shortcuts config |} in
          Some (save_config cw config,
                [AddHeader] ++ out ++ added ++ [AddSaved])
      end
  end.

(** The project names typed before the first blank answer. *)
Fixpoint typed_projects (answers : list string) : list string :=
  match answers with
  | [] => []
  | answer :: answers' =>
      match strip answer with
      | EmptyString => []
      | String _ _ as proj => proj :: typed_projects answers'
      end
  end.

End Add.

(** [c'] is the customer [c] with its projects and perhaps more after
    them. *)
Definition extends (c c' : Customer) : Prop :=
  c_name c' = c_name c /\ exists more, c_projects c' = c_projects c ++ more.
(** ** Duration policy: proofs *)

Lemma Qceiling_div_900 (z : Z) :
  Qceiling ((inject_Z z / 60) / 15) = - ((- z) / 900).
Proof.
  unfold Qceiling, Qfloor, Qdiv, Qmult, Qinv, Qopp, inject_Z. simpl.
  rewrite !Z.mul_1_r. reflexivity.
Qed.

Lemma round_seconds_to_15min_nonpos (q : Q) :
  (q <= 0)%Q -> round_seconds_to_15min q = 0.
Proof.
  intros H. unfold round_seconds_to_15min.
  apply Qle_bool_iff in H. now rewrite H.
Qed.

Lemma round_seconds_to_15min_pos (q : Q) :
  (0 < q)%Q -> round_seconds_to_15min q = Qceiling (q / 60 / 15) * 15 * 60.
Proof.
  intros H. unfold round_seconds_to_15min.
  destruct (Qle_bool q 0) eqn:E; [|reflexivity].
  apply Qle_bool_iff in E. exfalso. revert E. now apply Qlt_not_le.
Qed.

Lemma round_seconds_to_15min_Z_pos (z : Z) :
  0 < z -> round_seconds_to_15min (inject_Z z) = - ((- z) / 900) * 900.
Proof.
  intros Hz. rewrite round_seconds_to_15min_pos.
  - rewrite Qceiling_div_900. lia.
  - unfold Qlt, inject_Z; simpl. lia.
Qed.

(** C1.  On an integer number of seconds, [round_seconds_to_15min] returns 0
    when the input is at most 0, and otherwise the smallest non-negative
    multiple of 900 that is at least the input.  Hence for all [s >= 0] the
    result is at least [s], is divisible by 900, and equals [s] when [s] is
    itself a multiple of 900. *)
Theorem round_seconds_to_15min_smallest_multiple (seconds : Z) :
  let r := round_seconds_to_15min (inject_Z seconds) in
  (seconds <= 0 -> r = 0) /\
  (0 < seconds ->
     0 <= r /\ (900 | r) /\ seconds <= r /\
     forall m, 0 <= m -> (900 | m) -> seconds <= m -> r <= m) /\
  (0 <= seconds ->
     seconds <= r /\ r mod 900 = 0 /\ (seconds mod 900 = 0 -> r = seconds)).
Proof.
  cbv zeta. split; [|split].
  - intros H. apply round_seconds_to_15min_nonpos.
    unfold Qle, inject_Z; simpl. lia.
  - intros H. rewrite round_seconds_to_15min_Z_pos by assumption.
    repeat split.
    + Z.div_mod_to_equations. lia.
    + exists (- (- seconds / 900)). reflexivity.
    + Z.div_mod_to_equations. lia.
    + intros m Hm [k ->] Hle. Z.div_mod_to_equations. lia.
  - intros H. destruct (Z.eq_dec seconds 0) as [->|Hne].
    + repeat split; reflexivity.
    + rewrite round_seconds_to_15min_Z_pos by lia.
      repeat split.
      * Z.div_mod_to_equations. lia.
      * apply Z_mod_mult.
      * intros Hm. Z.div_mod_to_equations. lia.
Qed.

Lemma round_seconds_to_15min_Q_bounds (q : Q) :
  (0 < q)%Q ->
  let r := round_seconds_to_15min q in
  (900 | r) /\ (q <= inject_Z r)%Q /\ (inject_Z r < q + 900)%Q.
Proof.
  intros Hq r. subst r. rewrite round_seconds_to_15min_pos by assumption.
  set (x := (q / 60 / 15)%Q).
  assert (Hx : (q == x * 900)%Q) by (unfold x; field).
  pose proof (Qle_ceiling x) as Hle.
  pose proof (Qceiling_lt x) as Hlt.
  replace (Qceiling x * 15 * 60) with (Qceiling x * 900) by lia.
  split; [exists (Qceiling x); reflexivity|].
  rewrite inject_Z_mult. split.
  - rewrite Hx. apply Qmult_le_compat_r; [assumption|]. discriminate.
  - rewrite Hx.
    unfold Z.sub in Hlt. rewrite inject_Z_plus in Hlt.
    setoid_replace (x * 900 + 900)%Q with ((x + 1) * 900)%Q by ring.
    apply Qmult_lt_compat_r; [reflexivity|].
    apply Qplus_lt_l with (z := (- (1))%Q).
    setoid_replace (x + 1 + - (1))%Q with x by ring.
    exact Hlt.
Qed.

#[global] Instance round_seconds_to_15min_comp :
  Proper (Qeq ==> eq) round_seconds_to_15min.
Proof.
  intros a b Hab. unfold round_seconds_to_15min.
  assert (E : Qle_bool a 0 = Qle_bool b 0).
  { destruct (Qle_bool a 0) eqn:Ea, (Qle_bool b 0) eqn:Eb; try reflexivity.
    - apply Qle_bool_iff in Ea. rewrite Hab in Ea. apply Qle_bool_iff in Ea. congruence.
    - apply Qle_bool_iff in Eb. rewrite <- Hab in Eb. apply Qle_bool_iff in Eb. congruence. }
  rewrite E. destruct (Qle_bool b 0); [reflexivity|].
  cbv zeta. now rewrite Hab.
Qed.

(** ** Timer logic: proofs *)

Lemma Qltb_true (a b : Q) : Py.Qltb a b = true <-> (a < b)%Q.
Proof.
  unfold Py.Qltb. rewrite negb_true_iff. split; intros H.
  - apply Qnot_le_lt. intros Hle. apply Qle_bool_iff in Hle. congruence.
  - destruct (Qle_bool b a) eqn:E; [|reflexivity].
    apply Qle_bool_iff in E. exfalso. revert E. now apply Qlt_not_le.
Qed.

Lemma Qltb_false (a b : Q) : Py.Qltb a b = false <-> (b <= a)%Q.
Proof.
  unfold Py.Qltb. rewrite negb_false_iff. apply Qle_bool_iff.
Qed.

Section TimerFacts.

Variable localtime_hhmm : Q -> string.

(** The entry [stop_current] commits for session [c] at time [now]. *)
Lemma stop_current_running (data : Data) (c : Session) (now : Q)
    (verbose : bool) :
  current data = Some c ->
  exists entry out,
    stop_current localtime_hhmm data now verbose
      = ({| current := None; history := history data ++ [entry] |},
         out, true) /\
    h_customer entry = customer c /\
    h_project entry = project c /\
    h_notes entry = Some (match notes c with Some l => l | None => [] end) /\
    raw_seconds entry
      = (if Py.Qltb (now - start_timestamp c) 0 then 0
         else now - start_timestamp c)%Q /\
    duration_seconds entry = round_seconds_to_15min (raw_seconds entry).
Proof.
  intros Hc. unfold stop_current. rewrite Hc.
  cbv zeta.
  destruct (get_formatted_duration _) as [h m].
  eexists. eexists. split; [reflexivity|].
  cbn. repeat split.
Qed.

Lemma stop_current_raw_cases (data : Data) (c : Session)
    (now : Q) (verbose : bool) :
  current data = Some c ->
  exists entry out,
    stop_current localtime_hhmm data now verbose
      = ({| current := None; history := history data ++ [entry] |},
         out, true) /\
    (raw_seconds entry == Qmax 0 (now - start_timestamp c))%Q /\
    ((now < start_timestamp c)%Q ->
       raw_seconds entry = 0%Q /\ duration_seconds entry = 0) /\
    ((start_timestamp c <= now)%Q ->
       raw_seconds entry = (now - start_timestamp c)%Q /\
       duration_seconds entry
         = round_seconds_to_15min (now - start_timestamp c)) /\
    (0 <= raw_seconds entry)%Q /\ 0 <= duration_seconds entry.
Proof.
  intros Hc.
  destruct (stop_current_running data c now verbose Hc)
    as (entry & out & Hrun & _ & _ & _ & Hraw & Hdur).
  exists entry, out. split; [exact Hrun|].
  destruct (Py.Qltb (now - start_timestamp c) 0) eqn:E.
  - apply Qltb_true in E.
    assert (Hlt : (now < start_timestamp c)%Q).
    { apply Qplus_lt_l with (z := (- start_timestamp c)%Q).
      rewrite Qplus_opp_r. exact E. }
    rewrite Hdur, Hraw. split; [|split; [|split; [|split]]].
    + symmetry. apply Q.max_l. now apply Qlt_le_weak.
    + intros _. split; reflexivity.
    + intros Hle. exfalso. revert Hlt. now apply Qle_not_lt.
    + apply Qle_refl.
    + reflexivity.
  - apply Qltb_false in E.
    assert (Hle : (start_timestamp c <= now)%Q).
    { apply Qplus_le_l with (z := (- start_timestamp c)%Q).
      rewrite Qplus_opp_r. exact E. }
    rewrite Hdur, Hraw. split; [|split; [|split; [|split]]].
    + symmetry. now apply Q.max_r.
    + intros Hlt. exfalso. revert Hlt. now apply Qle_not_lt.
    + intros _. split; reflexivity.
    + exact E.
    + destruct (Qlt_le_dec 0 (now - start_timestamp c)) as [Hpos|Hnp].
      * destruct (round_seconds_to_15min_Q_bounds _ Hpos) as (_ & Hge & _).
        apply Qlt_le_weak in Hpos.
        pose proof (Qle_trans _ _ _ Hpos Hge) as H0.
        unfold Qle, inject_Z in H0; simpl in H0. lia.
      * rewrite round_seconds_to_15min_nonpos by assumption. lia.
Qed.


(** C4.  With no timer running, [stop_current] returns [False] and leaves
    [data] as it was (no session, same history), and [cmd_stop] writes
    nothing and only reports that no timer is running.  The result tells
    this from a real stop, which returns [True] and changes [data]. *)
Theorem stop_current_idle_nothing_to_stop (data : Data) (now : Q)
    (verbose : bool) :
  current data = None ->
  stop_current localtime_hhmm data now verbose = (data, [], false) /\
  (forall w, load_json w empty_data = data ->
             cmd_stop localtime_hhmm w now = (w, [NoTimerRunning])) /\
  (forall data' c, current data' = Some c ->
     snd (stop_current localtime_hhmm data' now verbose) = true /\
     fst (fst (stop_current localtime_hhmm data' now verbose)) <> data').
Proof.
  intros Hc. split; [|split].
  - unfold stop_current. now rewrite Hc.
  - intros w Hw. unfold cmd_stop, stop_current. rewrite Hw, Hc. reflexivity.
  - intros data' c Hc'.
    destruct (stop_current_running data' c now verbose Hc')
      as (entry & out & Hrun & _).
    rewrite Hrun. cbn. split; [reflexivity|].
    intros Heq. rewrite <- Heq in Hc'. discriminate.
Qed.

(** C9, as amended.  The committed [raw_seconds] is the elapsed time
    [max(0, now - start_timestamp)] itself, not a truncation of it: it is
    a whole number of seconds exactly when the clock went back (it is then
    0) or the two clock readings differ by a whole number. *)
Theorem stop_current_raw_seconds_elapsed (data : Data) (c : Session)
    (now : Q) (verbose : bool) :
  current data = Some c ->
  exists entry out,
    stop_current localtime_hhmm data now verbose
      = ({| current := None; history := history data ++ [entry] |},
         out, true) /\
    (raw_seconds entry == Qmax 0 (now - start_timestamp c))%Q /\
    (whole (raw_seconds entry) <->
     (now < start_timestamp c)%Q \/ whole (now - start_timestamp c)).
Proof.
  intros Hc.
  destruct (stop_current_raw_cases data c now verbose Hc)
    as (entry & out & Hrun & Hmax & Hneg & Hpos & _).
  exists entry, out. split; [exact Hrun|]. split; [exact Hmax|].
  destruct (Qlt_le_dec now (start_timestamp c)) as [Hlt|Hle].
  - destruct (Hneg Hlt) as [-> _]. split.
    + intros _. now left.
    + intros _. exists 0. reflexivity.
  - destruct (Hpos Hle) as [-> _]. split.
    + intros H. now right.
    + intros [Hlt|H]; [|exact H].
      exfalso. revert Hlt. now apply Qle_not_lt.
Qed.

(** C10.  When the running session has no [notes] key, [stop_current]
    still succeeds and the committed entry has [notes = []]; and
    [cmd_note] with some words creates the list, which then holds exactly
    the new note. *)
Theorem stop_current_missing_notes (data : Data) (c : Session) (now : Q)
    (verbose : bool) :
  current data = Some c ->
  notes c = None ->
  (exists entry out,
     stop_current localtime_hhmm data now verbose
       = ({| current := None; history := history data ++ [entry] |},
          out, true) /\
     h_notes entry = Some []) /\
  (forall w a args,
     load_json w empty_data = data ->
     cmd_note w (a :: args)
       = ({| data_file :=
               Some {| current :=
                         Some {| customer := customer c;
                                 project := project c;
                                 start_timestamp := start_timestamp c;
                                 notes := Some [Py.join " " (a :: args)] |};
                       history := history data |} |},
          [NoteAdded (Py.join " " (a :: args))])).
Proof.
  intros Hc Hn. split.
  - destruct (stop_current_running data c now verbose Hc)
      as (entry & out & Hrun & _ & _ & Hnotes & _).
    exists entry, out. split; [exact Hrun|]. now rewrite Hnotes, Hn.
  - intros w a args Hw. unfold cmd_note. rewrite Hw, Hc, Hn. reflexivity.
Qed.

(** C2, as amended.  [cmd_start] with a non-empty customer and a non-empty
    project never fails, on a running or an idle store: it saves a store whose
    session has the new customer and project, [start_timestamp] the clock
    reading [now_start], and notes [[note]] when a note is given (a
    non-empty string) and [[]] otherwise.  On a running store the saved
    history is the old one plus exactly one entry, the one [stop_current]
    commits for the old session; on an idle store it is unchanged. *)
Theorem cmd_start_commits_then_installs (w : World) (now_stop now_start : Q)
    (cust proj : string) (note : option string) :
  cust <> ""%string ->
  proj <> ""%string ->
  let data := load_json w empty_data in
  exists history' notes_list out,
    cmd_start localtime_hhmm w now_stop now_start
      (Resolved (Some cust) (Some proj) note)
      = ({| data_file :=
              Some {| current :=
                        Some {| customer := cust;
                                project := proj;
                                start_timestamp := now_start;
                                notes := Some notes_list |};
                      history := history' |} |},
         out ++ [Started cust proj (if Py.truthy note then note else None)])
    /\ (forall n, note = Some n -> n <> ""%string -> notes_list = [n])
    /\ (Py.truthy note = false -> notes_list = [])
    /\ (current data = None -> history' = history data /\ out = [])
    /\ (forall c, current data = Some c ->
          exists entry (h m : Z),
            stop_current localtime_hhmm data now_stop true
              = ({| current := None; history := history' |},
                 out, true) /\
            history' = history data ++ [entry] /\
            List.length history' = S (List.length (history data)) /\
            h_customer entry = customer c /\
            h_project entry = project c /\
            out = [Stopped (customer c) (project c) h m]).
Proof.
  intros Hcust Hproj data.
  destruct cust as [|a cust']; [congruence|].
  destruct proj as [|b proj']; [congruence|].
  unfold cmd_start. fold data.
  destruct (current data) as [c|] eqn:Hc.
  - destruct (stop_current_running data c now_stop true Hc)
      as (entry & out & Hrun & Hcu & Hpr & _).
    rewrite Hrun. cbn [fst snd history].
    eexists. eexists. exists out. split; [reflexivity|].
    split; [|split; [|split]].
    + intros n -> Hn. destruct n; [congruence|]. reflexivity.
    + intros Hf. now rewrite Hf.
    + discriminate.
    + intros c' [= <-]. exists entry.
      assert (Hout : exists h m, out = [Stopped (customer c) (project c) h m]).
      { unfold stop_current in Hrun. rewrite Hc in Hrun. cbv zeta in Hrun.
        destruct (get_formatted_duration _) as [h m].
        exists h, m. now inversion Hrun. }
      destruct Hout as (h & m & Hout). exists h, m.
      repeat split; try assumption.
      rewrite length_app. cbn. lia.
  - eexists. eexists. exists []. split; [reflexivity|].
    split; [|split; [|split]].
    + intros n -> Hn. destruct n; [congruence|]. reflexivity.
    + intros Hf. now rewrite Hf.
    + intros _. split; reflexivity.
    + discriminate.
Qed.

End TimerFacts.

(** ** Notes: proofs *)

Lemma join_nonempty_args (sep : string) (args : list string) :
  Py.join sep args <> ""%string -> args <> [].
Proof. intros H ->. now apply H. Qed.

(** C5, as amended.  [cmd_note] fails with "No timer running" on an idle
    store and with "Note cannot be empty" when it is given no words; both
    leave the file as it was.  On a running store, a non-empty text (blank
    or not) is appended to the session's notes, the earlier notes kept in
    order. *)
Theorem cmd_note_outcomes (w : World) (args : list string) :
  let data := load_json w empty_data in
  (current data = None -> cmd_note w args = (w, [NoTimerRunningError])) /\
  (forall c, current data = Some c -> args = [] ->
             cmd_note w args = (w, [NoteCannotBeEmpty])) /\
  (forall c, current data = Some c -> Py.join " " args <> ""%string ->
     cmd_note w args
       = ({| data_file :=
               Some {| current :=
                         Some {| customer := customer c;
                                 project := project c;
                                 start_timestamp := start_timestamp c;
                                 notes :=
                                   Some ((match notes c with
                                          | Some l => l
                                          | None => []
                                          end) ++ [Py.join " " args]) |};
                       history := history data |} |},
          [NoteAdded (Py.join " " args)])).
Proof.
  intros data. unfold cmd_note. fold data. split; [|split].
  - intros ->. reflexivity.
  - intros c -> ->. reflexivity.
  - intros c -> Hj. apply join_nonempty_args in Hj.
    destruct args; [congruence|]. reflexivity.
Qed.

(** ** Ordered dicts: facts *)

Section DictFacts.
Context {K V : Type}.
Variable eqb : K -> K -> bool.
Hypothesis eqb_eq : forall a b, eqb a b = true <-> a = b.

Lemma eqb_refl' (k : K) : eqb k k = true.
Proof. now apply eqb_eq. Qed.

Lemma eqb_neq' (a b : K) : a <> b -> eqb a b = false.
Proof.
  intros H. destruct (eqb a b) eqn:E; [|reflexivity].
  apply eqb_eq in E. contradiction.
Qed.

Lemma get_set_same (d : Py.dict K V) (k : K) (v : V) :
  Py.get eqb (Py.set eqb d k v) k = Some v.
Proof.
  induction d as [|[k' v'] d IH]; cbn.
  - now rewrite eqb_refl'.
  - destruct (eqb k' k) eqn:E; cbn; rewrite E; [reflexivity|exact IH].
Qed.

Lemma get_set_other (d : Py.dict K V) (k k' : K) (v : V) :
  k <> k' -> Py.get eqb (Py.set eqb d k v) k' = Py.get eqb d k'.
Proof.
  intros Hne. induction d as [|[k0 v0] d IH]; cbn.
  - now rewrite eqb_neq'.
  - destruct (eqb k0 k) eqn:E; cbn.
    + apply eqb_eq in E. subst k0. now rewrite eqb_neq'.
    + now rewrite IH.
Qed.

Lemma get_None_keys (d : Py.dict K V) (k : K) :
  Py.get eqb d k = None <-> ~ In k (Py.keys d).
Proof.
  induction d as [|[k' v'] d IH]; cbn.
  - tauto.
  - destruct (eqb k' k) eqn:E.
    + apply eqb_eq in E. split; [discriminate|]. intros H. exfalso. auto.
    + rewrite IH. split.
      * intros H [Heq|Hin]; [|contradiction].
        apply eqb_eq in Heq. congruence.
      * tauto.
Qed.

Lemma keys_set (d : Py.dict K V) (k : K) (v : V) :
  Py.keys (Py.set eqb d k v)
  = if Py.mem eqb d k then Py.keys d else Py.keys d ++ [k].
Proof.
  unfold Py.mem. induction d as [|[k' v'] d IH]; cbn.
  - reflexivity.
  - destruct (eqb k' k) eqn:E; cbn.
    + reflexivity.
    + unfold Py.keys in IH. rewrite IH.
      now destruct (Py.get eqb d k).
Qed.

Lemma NoDup_keys_set (d : Py.dict K V) (k : K) (v : V) :
  NoDup (Py.keys d) -> NoDup (Py.keys (Py.set eqb d k v)).
Proof.
  intros Hnd. rewrite keys_set. unfold Py.mem.
  destruct (Py.get eqb d k) eqn:E; [exact Hnd|].
  apply get_None_keys in E.
  apply NoDup_app; [exact Hnd|repeat constructor; auto|].
  intros x Hx [<-|[]]. contradiction.
Qed.
End DictFacts.

Lemma key_eqb_eq (a b : Key) : key_eqb a b = true <-> a = b.
Proof.
  destruct a as [a1 a2], b as [b1 b2]. unfold key_eqb. cbn.
  rewrite andb_true_iff, !String.eqb_eq. split.
  - intros [-> ->]. reflexivity.
  - intros [= -> ->]. split; reflexivity.
Qed.

Lemma sum_durations_app (l1 l2 : list HistoryEntry) :
  sum_durations (l1 ++ l2) = sum_durations l1 + sum_durations l2.
Proof.
  unfold sum_durations.
  induction l1 as [|e l1 IH]; cbn; [reflexivity|].
  rewrite IH. lia.
Qed.

Lemma group_entries_snoc (k : Key) (h : list HistoryEntry) (e : HistoryEntry) :
  group_entries k (h ++ [e])
  = group_entries k h ++ (if key_eqb (entry_key e) k then [e] else []).
Proof. unfold group_entries. rewrite filter_app. reflexivity. Qed.

Lemma bucket_entries_snoc (k : Key) (label : string) (h : list HistoryEntry)
    (e : HistoryEntry) :
  bucket_entries k label (h ++ [e])
  = bucket_entries k label h
      ++ (if key_eqb (entry_key e) k && (entry_label e =? label)%string
          then [e] else []).
Proof.
  unfold bucket_entries. rewrite group_entries_snoc, filter_app.
  destruct (key_eqb (entry_key e) k); cbn; [|reflexivity].
  now destruct (entry_label e =? label)%string.
Qed.

Lemma process_history_snoc (summary : Summary) (h : list HistoryEntry)
    (e : HistoryEntry) :
  process_history summary (h ++ [e])
  = process_entry (process_history summary h) (h_customer e) (h_project e)
      (duration_seconds e) (entry_notes e).
Proof. unfold process_history. rewrite fold_left_app. reflexivity. Qed.

Lemma summarizes_process_entry (summary : Summary) (h : list HistoryEntry)
    (e : HistoryEntry) :
  summarizes summary h ->
  summarizes
    (process_entry summary (h_customer e) (h_project e) (duration_seconds e)
       (entry_notes e))
    (h ++ [e]).
Proof.
  intros (Hnd & Hnone & Hsome). unfold process_entry. cbv zeta.
  change (h_customer e, h_project e) with (entry_key e).
  change (task_name_of (entry_notes e)) with (entry_label e).
  set (g0 := match Py.get key_eqb summary (entry_key e) with
             | Some g => g
             | None => {| total_seconds := 0; tasks := [] |}
             end).
  assert (Hg0 : total_seconds g0 = sum_durations (group_entries (entry_key e) h) /\
                NoDup (Py.keys (tasks g0)) /\
                (forall label, Py.get String.eqb (tasks g0) label = None
                               <-> bucket_entries (entry_key e) label h = []) /\
                (forall label t, Py.get String.eqb (tasks g0) label = Some t ->
                                 t = sum_durations (bucket_entries (entry_key e) label h))).
  { subst g0. destruct (Py.get key_eqb summary (entry_key e)) as [g|] eqn:E.
    - exact (Hsome _ _ E).
    - apply Hnone in E. unfold bucket_entries. rewrite E. cbn.
      repeat split; try constructor; try discriminate. }
  destruct Hg0 as (Htot & Hndt & Htnone & Htsome).
  split; [|split].
  - now apply NoDup_keys_set; [apply key_eqb_eq|].
  - intros k. rewrite group_entries_snoc.
    destruct (key_eqb (entry_key e) k) eqn:Ek.
    + apply key_eqb_eq in Ek. subst k.
      rewrite get_set_same by exact key_eqb_eq. split; [discriminate|].
      intros H. now apply app_eq_nil in H as [_ H].
    + assert (Hne : entry_key e <> k).
      { intros Heq. rewrite Heq, (proj2 (key_eqb_eq _ _) eq_refl) in Ek.
        discriminate. }
      rewrite get_set_other by (exact key_eqb_eq || exact Hne).
      rewrite app_nil_r. apply Hnone.
  - intros k g. rewrite group_entries_snoc.
    destruct (key_eqb (entry_key e) k) eqn:Ek.
    + apply key_eqb_eq in Ek. subst k.
      rewrite get_set_same by exact key_eqb_eq. intros [= <-]. cbn [total_seconds tasks].
      split; [|split; [|split]].
      * rewrite sum_durations_app, Htot. cbn. lia.
      * apply NoDup_keys_set; [apply String.eqb_eq|exact Hndt].
      * intros label. rewrite bucket_entries_snoc.
        rewrite (proj2 (key_eqb_eq _ _) eq_refl). cbn [andb].
        destruct (entry_label e =? label)%string eqn:El.
        -- apply String.eqb_eq in El. subst label.
           rewrite get_set_same by exact String.eqb_eq. split; [discriminate|].
           intros H. now apply app_eq_nil in H as [_ H].
        -- apply String.eqb_neq in El.
           rewrite get_set_other by (exact String.eqb_eq || exact El).
           rewrite app_nil_r. apply Htnone.
      * intros label t. rewrite bucket_entries_snoc.
        rewrite (proj2 (key_eqb_eq _ _) eq_refl). cbn [andb].
        destruct (entry_label e =? label)%string eqn:El.
        -- apply String.eqb_eq in El. subst label.
           rewrite get_set_same by exact String.eqb_eq. intros [= <-].
           rewrite sum_durations_app. cbn.
           destruct (Py.get String.eqb (tasks g0) (entry_label e)) as [t0|] eqn:Et.
           ++ rewrite (Htsome _ _ Et). lia.
           ++ apply Htnone in Et. rewrite Et. cbn. lia.
        -- apply String.eqb_neq in El.
           rewrite get_set_other by (exact String.eqb_eq || exact El).
           rewrite app_nil_r. apply Htsome.
    + assert (Hne : entry_key e <> k).
      { intros Heq. rewrite Heq, (proj2 (key_eqb_eq _ _) eq_refl) in Ek.
        discriminate. }
      rewrite get_set_other by (exact key_eqb_eq || exact Hne).
      rewrite app_nil_r. intros Hg.
      destruct (Hsome _ _ Hg) as (H1 & H2 & H3 & H4).
      split; [exact H1|]. split; [exact H2|]. split.
      * intros label. rewrite bucket_entries_snoc, Ek. cbn. rewrite app_nil_r. apply H3.
      * intros label t. rewrite bucket_entries_snoc, Ek. cbn. rewrite app_nil_r. apply H4.
Qed.

Lemma summarizes_process_history (h : list HistoryEntry) :
  summarizes (process_history [] h) h.
Proof.
  induction h as [|e h IH] using rev_ind.
  - cbn. split; [constructor|]. split.
    + intros k. split; reflexivity.
    + intros k g. discriminate.
  - rewrite process_history_snoc. now apply summarizes_process_entry.
Qed.

Section DictMembers.
Context {K V : Type}.
Variable eqb : K -> K -> bool.
Hypothesis eqb_eq : forall a b, eqb a b = true <-> a = b.

Lemma get_Some_In (d : Py.dict K V) (k : K) (v : V) :
  Py.get eqb d k = Some v -> In (k, v) d.
Proof.
  induction d as [|[k' v'] d IH]; cbn; [discriminate|].
  destruct (eqb k' k) eqn:E.
  - apply eqb_eq in E. intros [= ->]. left. now subst.
  - intros H. right. now apply IH.
Qed.

Lemma In_get_Some (d : Py.dict K V) (k : K) (v : V) :
  NoDup (Py.keys d) -> In (k, v) d -> Py.get eqb d k = Some v.
Proof.
  induction d as [|[k' v'] d IH]; cbn; [contradiction|].
  intros Hnd [Heq|Hin].
  - injection Heq as -> ->. now rewrite (proj2 (eqb_eq k k) eq_refl).
  - inversion Hnd as [|? ? Hnotin Hnd']; subst.
    destruct (eqb k' k) eqn:E.
    + apply eqb_eq in E. subst k'. exfalso. apply Hnotin.
      change k with (fst (k, v)). now apply in_map.
    + now apply IH.
Qed.
End DictMembers.

(** ** Sorting: facts *)

Section SortedFacts.
Context {A B : Type}.
Variable lt : B -> B -> bool.
Variable key : A -> B.
Variable le : A -> A -> Prop.
Hypothesis lt_le : forall x y, lt (key y) (key x) = true -> le y x.
Hypothesis not_lt_le : forall x y, lt (key y) (key x) = false -> le x y.

Lemma insert_Permutation (x : A) (l : list A) :
  Permutation (Py.insert lt key x l) (x :: l).
Proof.
  induction l as [|y l IH]; cbn; [reflexivity|].
  destruct (lt (key y) (key x)); [|reflexivity].
  rewrite IH. apply perm_swap.
Qed.

Lemma sorted_Permutation (l : list A) : Permutation (Py.sorted lt key l) l.
Proof.
  induction l as [|x l IH]; cbn; [reflexivity|].
  rewrite insert_Permutation. now constructor.
Qed.

Lemma insert_HdRel (a x : A) (l : list A) :
  le a x -> HdRel le a l -> HdRel le a (Py.insert lt key x l).
Proof.
  intros Hax Hal. destruct l as [|y l]; cbn.
  - now constructor.
  - destruct (lt (key y) (key x)); constructor; [|assumption].
    now inversion Hal.
Qed.

Lemma insert_Sorted (x : A) (l : list A) :
  Sorted le l -> Sorted le (Py.insert lt key x l).
Proof.
  induction l as [|y l IH]; cbn; intros Hs.
  - repeat constructor.
  - inversion Hs as [|? ? Hs' Hhd]; subst.
    destruct (lt (key y) (key x)) eqn:E.
    + constructor; [now apply IH|].
      apply insert_HdRel; [now apply lt_le|assumption].
    + constructor; [assumption|]. constructor. now apply not_lt_le.
Qed.

Lemma sorted_Sorted (l : list A) : Sorted le (Py.sorted lt key l).
Proof.
  induction l as [|x l IH]; cbn; [constructor|]. now apply insert_Sorted.
Qed.
End SortedFacts.

(** ** The order of the sort keys *)

Lemma string_compare_refl (s : string) : String.compare s s = Eq.
Proof.
  pose proof (String.compare_antisym s s) as H.
  destruct (String.compare s s); cbn in H; congruence.
Qed.

Lemma string_compare_trans (a b c : string) :
  String.compare a b = Lt -> String.compare b c = Lt -> String.compare a c = Lt.
Proof.
  revert b c. induction a as [|x a IH]; intros [|y b] [|z c]; cbn;
    try congruence.
  unfold Ascii.compare.
  destruct (N.compare_spec (N_of_ascii x) (N_of_ascii y)) as [Exy|Lxy|Gxy];
    destruct (N.compare_spec (N_of_ascii y) (N_of_ascii z)) as [Eyz|Lyz|Gyz];
    try congruence; intros H1 H2.
  - rewrite Exy, Eyz, N.compare_refl. now apply IH with b.
  - rewrite Exy. now apply N.compare_lt_iff in Lyz as ->.
  - rewrite <- Eyz. now apply N.compare_lt_iff in Lxy as ->.
  - assert (L : (N_of_ascii x < N_of_ascii z)%N) by lia.
    now apply N.compare_lt_iff in L as ->.
Qed.

Lemma string_ltb_lt (a b : string) :
  String.ltb a b = true <-> String.compare a b = Lt.
Proof. unfold String.ltb. destruct (String.compare a b); split; congruence. Qed.

Lemma string_leb_le (a b : string) :
  String.leb a b = true <-> String.compare a b <> Gt.
Proof. unfold String.leb. destruct (String.compare a b); split; congruence. Qed.

Lemma string_compare_Gt_Lt (a b : string) :
  String.compare a b = Gt <-> String.compare b a = Lt.
Proof.
  rewrite (String.compare_antisym a b).
  destruct (String.compare b a); cbn; split; congruence.
Qed.

Lemma string_leb_cases (a b : string) :
  String.leb a b = true <-> String.ltb a b = true \/ a = b.
Proof.
  rewrite string_leb_le, string_ltb_lt. split.
  - destruct (String.compare a b) eqn:E; try congruence.
    + right. now apply String.compare_eq_iff.
    + now left.
  - intros [->| ->]; [congruence|]. rewrite string_compare_refl. congruence.
Qed.

Lemma string_leb_trans (a b c : string) :
  String.leb a b = true -> String.leb b c = true -> String.leb a c = true.
Proof.
  rewrite !string_leb_cases, !string_ltb_lt.
  intros [H1| ->] [H2| ->]; auto.
  left. now apply string_compare_trans with b.
Qed.

Lemma tuple_ltb_le (a b : string * string) :
  tuple_ltb a b = true -> tuple_le a b.
Proof.
  unfold tuple_ltb, tuple_le.
  destruct (fst a =? fst b)%string eqn:E.
  - apply String.eqb_eq in E. intros H. right. split; [assumption|].
    apply string_leb_cases. now left.
  - intros H. now left.
Qed.

Lemma tuple_not_ltb_le (a b : string * string) :
  tuple_ltb b a = false -> tuple_le a b.
Proof.
  unfold tuple_ltb, tuple_le.
  destruct (fst b =? fst a)%string eqn:E.
  - apply String.eqb_eq in E. intros H. right. split; [congruence|].
    apply string_leb_le. rewrite string_compare_Gt_Lt.
    intros HL. apply string_ltb_lt in HL. congruence.
  - apply String.eqb_neq in E. intros H. left.
    apply string_ltb_lt. apply string_compare_Gt_Lt.
    destruct (String.compare (fst b) (fst a)) eqn:C.
    + apply String.compare_eq_iff in C. contradiction.
    + apply string_ltb_lt in C. congruence.
    + reflexivity.
Qed.

Lemma tuple_le_trans (a b c : string * string) :
  tuple_le a b -> tuple_le b c -> tuple_le a c.
Proof.
  unfold tuple_le. rewrite !string_ltb_lt.
  intros [H1|[E1 H1]] [H2|[E2 H2]].
  - left. now apply string_compare_trans with (fst b).
  - left. now rewrite <- E2.
  - left. now rewrite E1.
  - right. split; [congruence|]. now apply string_leb_trans with (snd b).
Qed.

Section ReportFacts.
Variable lower : string -> string.

Lemma group_le_trans : Relations_1.Transitive (group_le lower).
Proof.
  intros x y z. unfold group_le. apply tuple_le_trans.
Qed.

(** ** Report: proofs *)

Lemma summarize_report_entries (data : Data) (now : Q) :
  summarize data now = process_history [] (report_entries data now).
Proof.
  unfold summarize, report_entries. destruct (current data) as [c|].
  - rewrite process_history_snoc. reflexivity.
  - now rewrite app_nil_r.
Qed.

Lemma In_keys_get {K V : Type} (eqb : K -> K -> bool)
    (eqb_eq : forall a b, eqb a b = true <-> a = b)
    (d : Py.dict K V) (k : K) :
  In k (Py.keys d) <-> Py.get eqb d k <> None.
Proof.
  pose proof (get_None_keys eqb eqb_eq d k) as H.
  destruct (Py.get eqb d k) eqn:E.
  - split; [discriminate|]. intros _.
    apply get_Some_In in E; [|exact eqb_eq].
    change k with (fst (k, v)). now apply in_map.
  - split; [|congruence]. intros Hin. now apply H in Hin.
Qed.

Lemma summarizes_members (summary : Summary) (h : list HistoryEntry) :
  summarizes summary h ->
  NoDup (map fst summary) /\
  (forall k, In k (map fst summary) <-> group_entries k h <> []) /\
  (forall k g, In (k, g) summary ->
     total_seconds g = sum_durations (group_entries k h) /\
     NoDup (map fst (tasks g)) /\
     (forall label, In label (map fst (tasks g))
                    <-> bucket_entries k label h <> []) /\
     (forall label t, In (label, t) (tasks g) ->
                      t = sum_durations (bucket_entries k label h))).
Proof.
  intros (Hnd & Hnone & Hsome). split; [exact Hnd|]. split.
  - intros k. change (map fst summary) with (Py.keys summary).
    rewrite (In_keys_get key_eqb key_eqb_eq). now rewrite Hnone.
  - intros k g Hin.
    apply (In_get_Some key_eqb key_eqb_eq) in Hin; [|exact Hnd].
    destruct (Hsome k g Hin) as (Htot & Hndt & Htnone & Htsome).
    split; [exact Htot|]. split; [exact Hndt|]. split.
    + intros label. change (map fst (tasks g)) with (Py.keys (tasks g)).
      rewrite (In_keys_get String.eqb String.eqb_eq). now rewrite Htnone.
    + intros label t Ht. apply Htsome.
      now apply (In_get_Some String.eqb String.eqb_eq).
Qed.

Lemma cmd_report_items (w : World) (now : Q) :
  sorted_items (snd (cmd_report lower w now))
  = Py.sorted tuple_ltb (sort_key lower)
      (summarize (load_json w empty_data) now).
Proof. reflexivity. Qed.

Lemma cmd_report_items_Permutation (w : World) (now : Q) :
  Permutation (sorted_items (snd (cmd_report lower w now)))
    (summarize (load_json w empty_data) now).
Proof. rewrite cmd_report_items. apply sorted_Permutation. Qed.

(** C6.  The report has one group per (customer, project) pair among the
    entries it accounts for (the history, and the running session if any),
    and no other group.  A group's total is the sum of the
    [duration_seconds] of its entries.  An entry's task label is its notes
    joined with [", "], or ["No Description"] when it has none; a group has
    one bucket per label among its entries, holding the sum of the
    [duration_seconds] of the entries with that label.  Two entries with the
    same pair and the same label make one group with one bucket, both
    holding the sum of their durations. *)
Theorem cmd_report_groups_entries (w : World) (now : Q) :
  let data := load_json w empty_data in
  let h := report_entries data now in
  let items := sorted_items (snd (cmd_report lower w now)) in
  (current data = None -> h = history data) /\
  (forall e,
     entry_label e = match entry_notes e with
                     | [] => "No Description"%string
                     | _ :: _ => String.concat ", " (entry_notes e)
                     end) /\
  NoDup (map fst items) /\
  (forall k, In k (map fst items) <-> group_entries k h <> []) /\
  (forall k g, In (k, g) items ->
     total_seconds g = sum_durations (group_entries k h) /\
     NoDup (map fst (tasks g)) /\
     (forall label, In label (map fst (tasks g))
                    <-> bucket_entries k label h <> []) /\
     (forall label t, In (label, t) (tasks g) ->
                      t = sum_durations (bucket_entries k label h))) /\
  (forall e1 e2,
     entry_key e1 = entry_key e2 -> entry_label e1 = entry_label e2 ->
     process_history [] [e1; e2]
     = [(entry_key e1,
         {| total_seconds := duration_seconds e1 + duration_seconds e2;
            tasks := [(entry_label e1,
                       duration_seconds e1 + duration_seconds e2)] |})]).
Proof.
  intros data h items.
  pose proof (cmd_report_items_Permutation w now) as Hperm.
  fold data items in Hperm. rewrite summarize_report_entries in Hperm.
  fold h in Hperm.
  destruct (summarizes_members _ _ (summarizes_process_history h))
    as (Hnd & Hkeys & Hgroups).
  split; [|split; [|split; [|split; [|split]]]].
  - intros Hc. unfold h, report_entries. rewrite Hc. apply app_nil_r.
  - intros e. reflexivity.
  - eapply Permutation_NoDup; [|exact Hnd].
    apply Permutation_map. now symmetry.
  - intros k. rewrite <- Hkeys. split; apply Permutation_in;
      apply Permutation_map; [assumption|now symmetry].
  - intros k g Hin. apply Hgroups. eapply Permutation_in; eassumption.
  - intros e1 e2 Hk Hl. unfold entry_label, entry_notes, entry_key in *.
    injection Hk as Hc Hp.
    cbn. unfold process_entry, key_eqb. cbn. rewrite <- Hc, <- Hp, <- Hl.
    rewrite !String.eqb_refl. cbn. rewrite ?String.eqb_refl. cbn.
    rewrite ?String.eqb_refl. reflexivity.
Qed.

Lemma sort_key_lowered (x : Key * Group) :
  sort_key lower x = lowered lower (fst x).
Proof. reflexivity. Qed.

(** C7.  The groups of a report are in ascending order of the pair
    (lower-cased customer, lower-cased project), whatever [str.lower]
    does to the names, and they are the groups of the summary, none lost
    or added.  With entries for [("beta", "x")] and [("Acme", "y")] the
    Acme group comes first. *)
Theorem cmd_report_groups_sorted (w : World) (now : Q) :
  let items := sorted_items (snd (cmd_report lower w now)) in
  StronglySorted
    (fun x y : Key * Group =>
       tuple_le (lower (fst (fst x)), lower (snd (fst x)))
                (lower (fst (fst y)), lower (snd (fst y))))
    items /\
  StronglySorted (group_le lower) items /\
  Permutation items (summarize (load_json w empty_data) now) /\
  (lowers_ascii lower ->
   forall e1 e2 now',
     entry_key e1 = ("beta", "x")%string ->
     entry_key e2 = ("Acme", "y")%string ->
     map fst
       (sorted_items
          (snd (cmd_report lower
                  {| data_file :=
                       Some {| current := None; history := [e1; e2] |} |}
                  now')))
     = [("Acme", "y"); ("beta", "x")]%string).
Proof.
  intros items.
  assert (Hs : StronglySorted (group_le lower) items).
  { apply Sorted_StronglySorted; [exact group_le_trans|].
    unfold items. rewrite cmd_report_items.
    apply sorted_Sorted.
    - intros x y H. unfold group_le. rewrite <- !sort_key_lowered.
      now apply tuple_ltb_le.
    - intros x y H. unfold group_le. rewrite <- !sort_key_lowered.
      now apply tuple_not_ltb_le. }
  split; [exact Hs|]. split; [exact Hs|]. split.
  - apply cmd_report_items_Permutation.
  - intros Hl e1 e2 now' H1 H2. rewrite cmd_report_items.
    unfold summarize, load_json. cbn [data_file current history].
    unfold process_history. cbn [fold_left]. unfold process_entry.
    change (h_customer e1, h_project e1) with (entry_key e1).
    change (h_customer e2, h_project e2) with (entry_key e2).
    rewrite H1, H2. cbn [Py.get Py.set key_eqb fst snd String.eqb Ascii.eqb
                          Bool.eqb andb].
    cbn [Py.sorted Py.insert sort_key fst snd].
    unfold sort_key. cbn [fst snd]. rewrite !Hl by reflexivity. reflexivity.
Qed.

Lemma summarize_comp (data : Data) (now now' : Q) :
  (now == now')%Q -> summarize data now = summarize data now'.
Proof.
  intros H. unfold summarize. destruct (current data) as [c|]; [|reflexivity].
  assert (E : (now - start_timestamp c == now' - start_timestamp c)%Q)
    by now rewrite H.
  now rewrite E.
Qed.

(** ** The report as a program: proofs *)

Lemma set_set {K V : Type} (eqb : K -> K -> bool)
    (eqb_eq : forall a b, eqb a b = true <-> a = b)
    (d : Py.dict K V) (k : K) (a b : V) :
  Py.set eqb (Py.set eqb d k a) k b = Py.set eqb d k b.
Proof.
  induction d as [|[k' v'] d IH]; cbn [Py.set].
  - now rewrite (proj2 (eqb_eq k k) eq_refl).
  - destruct (eqb k' k) eqn:E; cbn [Py.set]; rewrite E; [reflexivity|].
    now rewrite IH.
Qed.

(** The four statements of [process_entry] come to one update of the
    summary, and leave the rest of the memory. *)
Lemma process_entry_run_spec (cust proj : string) (seconds : Z)
    (notes_list : list string) (st : Store) :
  process_entry_run cust proj seconds notes_list st
  = Some (tt, {| st_world := st_world st;
                 st_data := st_data st;
                 st_summary := process_entry (st_summary st) cust proj
                                 seconds notes_list |}).
Proof.
  unfold process_entry_run, process_entry, bind, read_summary, ret, Py.mem.
  cbv zeta.
  destruct (Py.get key_eqb (st_summary st) (cust, proj)) as [g|] eqn:E;
    unfold summary_getitem, summary_setitem;
    repeat (progress (rewrite ?E, ?(get_set_same key_eqb key_eqb_eq),
                        ?(set_set key_eqb key_eqb_eq);
                      cbn [st_summary st_world st_data total_seconds tasks]));
    reflexivity.
Qed.

Lemma for_each_process_entry (h : list HistoryEntry) (st : Store) :
  for_each h
    (fun entry =>
       process_entry_run (h_customer entry) (h_project entry)
         (duration_seconds entry)
         (match h_notes entry with Some l => l | None => [] end)) st
  = Some (tt, {| st_world := st_world st;
                 st_data := st_data st;
                 st_summary := process_history (st_summary st) h |}).
Proof.
  revert st. induction h as [|e h IH]; intros st; cbn [for_each].
  - now destruct st.
  - unfold bind. rewrite process_entry_run_spec, IH. reflexivity.
Qed.

(** The program computes the function, and leaves the file and [data]. *)
Lemma cmd_report_run_spec (now : Q) (st : Store) :
  cmd_report_run lower now st
  = Some (snd (cmd_report lower (st_world st) now),
          {| st_world := st_world st;
             st_data := load_json (st_world st) empty_data;
             st_summary := summarize (load_json (st_world st) empty_data)
                             now |}).
Proof.
  unfold cmd_report_run, bind, load_data, new_summary, read_data.
  cbn [st_world st_data st_summary].
  rewrite for_each_process_entry. cbn [st_world st_data st_summary].
  unfold cmd_report, summarize. cbn [snd].
  destruct (current (load_json (st_world st) empty_data)) as [c|] eqn:Hc.
  - rewrite process_entry_run_spec. unfold read_summary, ret.
    cbn [st_world st_data st_summary]. now rewrite Hc.
  - unfold read_summary, ret. cbn [st_world st_data st_summary].
    now rewrite Hc.
Qed.

Lemma cmd_stop_run_spec (localtime_hhmm : Q -> string) (now : Q) (st : Store) :
  cmd_stop_run localtime_hhmm now st
  = Some (snd (cmd_stop localtime_hhmm (st_world st) now),
          {| st_world := fst (cmd_stop localtime_hhmm (st_world st) now);
             st_data := fst (fst (stop_current localtime_hhmm
                                    (load_json (st_world st) empty_data)
                                    now true));
             st_summary := st_summary st |}).
Proof.
  unfold cmd_stop_run, cmd_stop, stop_current_run, stop_current, bind,
    load_data, read_data.
  cbn [st_world st_data st_summary].
  destruct (current (load_json (st_world st) empty_data)) as [c|].
  - cbv zeta. unfold bind, history_append, current_assign.
    cbn [st_world st_data st_summary current history].
    destruct (get_formatted_duration _) as [h m]. reflexivity.
  - reflexivity.
Qed.

(** C8.  A run of the report is a function of the file and the clock
    reading only: whatever the memory held before, two runs on the same
    file at readings that are equal as numbers return the same groups,
    total and running-timer flag, and so does a second run after the
    first.  The run returns (no exception), and it leaves the file and
    the [data] it loaded as they were: with a session active, the session
    is still the current one, the history has not grown, and the flag is
    set. *)
Theorem cmd_report_pure (st st' : Store) (now now' : Q) :
  st_world st = st_world st' ->
  (now == now')%Q ->
  exists r after after' again,
    cmd_report_run lower now st = Some (r, after) /\
    cmd_report_run lower now' st' = Some (r, after') /\
    cmd_report_run lower now after = Some (r, again) /\
    st_world after = st_world st /\
    st_data after = load_json (st_world st) empty_data /\
    (forall c, current (load_json (st_world st) empty_data) = Some c ->
               includes_running r = true /\
               current (st_data after) = Some c /\
               history (st_data after)
               = history (load_json (st_world st) empty_data)) /\
    (current (load_json (st_world st) empty_data) = None ->
     includes_running r = false).
Proof.
  intros Hw Hnow. rewrite !cmd_report_run_spec.
  do 4 eexists. split; [reflexivity|]. split; [|split].
  - rewrite <- Hw. unfold cmd_report. cbn [snd].
    now rewrite (summarize_comp _ _ _ Hnow).
  - rewrite cmd_report_run_spec. cbn [st_world]. reflexivity.
  - cbn [st_world st_data]. split; [reflexivity|]. split; [reflexivity|].
    split.
    + intros c Hc. unfold cmd_report. cbn [snd includes_running].
      rewrite Hc. repeat split.
    + intros Hc. unfold cmd_report. cbn [snd includes_running].
      now rewrite Hc.
Qed.

(** X24.  Looking at the report changes nothing for the stop that
    follows: [cmd_stop] run after [cmd_report] in the same memory prints
    what it prints, and leaves the file and [data] it leaves, when run
    without the report before it. *)
Theorem report_then_stop (localtime_hhmm : Q -> string) (now_report now_stop : Q)
    (st : Store) :
  exists out after alone,
    (cmd_report_run lower now_report ;; cmd_stop_run localtime_hhmm now_stop)%run
      st = Some (out, after) /\
    cmd_stop_run localtime_hhmm now_stop st = Some (out, alone) /\
    st_world after = st_world alone /\
    st_data after = st_data alone.
Proof.
  unfold bind. rewrite cmd_report_run_spec, !cmd_stop_run_spec.
  cbn [st_world]. do 3 eexists. repeat split.
Qed.

End ReportFacts.

(** ** Sample runs *)


Lemma stop_current_idle_nothing_to_stop_witness :
  stop_current utc_hhmm empty_data 1000 true = (empty_data, [], false).
Proof.
  exact (proj1 (stop_current_idle_nothing_to_stop utc_hhmm empty_data 1000
                  true eq_refl)).
Defined.

Lemma stop_current_raw_seconds_elapsed_witness :
  exists entry out,
    stop_current utc_hhmm data_1000 1900 false
      = ({| current := None; history := [entry] |}, out, true) /\
    (raw_seconds entry == Qmax 0 (1900 - 1000))%Q /\
    (whole (raw_seconds entry) <->
     (1900 < 1000)%Q \/ whole (1900 - 1000)).
Proof.
  exact (stop_current_raw_seconds_elapsed utc_hhmm data_1000 session_1000
           1900 false eq_refl).
Defined.

Lemma stop_current_missing_notes_witness :
  (exists entry out,
     stop_current utc_hhmm data_bare 1000 false
       = ({| current := None; history := [entry] |}, out, true) /\
     h_notes entry = Some []) /\
  cmd_note {| data_file := Some data_bare |} ["Second"; "note"]%string
  = ({| data_file :=
          Some {| current :=
                    Some {| customer := "Test"; project := "Proj";
                            start_timestamp := 100;
                            notes := Some ["Second note"%string] |};
                  history := [] |} |},
     [NoteAdded "Second note"]).
Proof.
  destruct (stop_current_missing_notes utc_hhmm data_bare session_bare 1000
              false eq_refl eq_refl) as [Hstop Hnote].
  split; [exact Hstop|].
  exact (Hnote {| data_file := Some data_bare |} _ _ eq_refl).
Defined.

Lemma cmd_start_commits_then_installs_witness :
  exists history' notes_list out,
    cmd_start utc_hhmm {| data_file := Some data_1000 |} 1900 1901
      (Resolved (Some "New Customer") (Some "New Project")
         (Some "My task note"))%string
    = ({| data_file :=
            Some {| current :=
                      Some {| customer := "New Customer";
                              project := "New Project";
                              start_timestamp := 1901;
                              notes := Some notes_list |};
                    history := history' |} |},
       out ++ [Started "New Customer" "New Project"
                 (Some "My task note")]%string)
    /\ notes_list = ["My task note"%string]
    /\ List.length history' = 1%nat.
Proof.
  destruct (cmd_start_commits_then_installs utc_hhmm
              {| data_file := Some data_1000 |} 1900 1901
              "New Customer" "New Project" (Some "My task note"%string))
    as (history' & notes_list & out & Hrun & Hnote & _ & _ & Hstop).
  - discriminate.
  - discriminate.
  - exists history', notes_list, out. split; [exact Hrun|]. split.
    + apply (Hnote _ eq_refl). discriminate.
    + destruct (Hstop session_1000 eq_refl)
        as (entry & h & m & _ & _ & Hlen & _).
      exact Hlen.
Defined.

Lemma cmd_report_pure_witness :
  let w := {| data_file := Some data_1000 |} in
  let st := {| st_world := w; st_data := empty_data; st_summary := [] |} in
  let st' := {| st_world := w;
                st_data := data_2000;
                st_summary :=
                  [(("Old", "Group")%string,
                    {| total_seconds := 900; tasks := [] |})] |} in
  exists r after after',
    cmd_report_run Py.lower (3801 # 2) st = Some (r, after) /\
    cmd_report_run Py.lower (7602 # 4) st' = Some (r, after') /\
    st_world after = w /\
    st_data after = data_1000 /\
    includes_running r = true.
Proof.
  cbv zeta.
  destruct (cmd_report_pure Py.lower
              {| st_world := {| data_file := Some data_1000 |};
                 st_data := empty_data;
                 st_summary := [] |}
              {| st_world := {| data_file := Some data_1000 |};
                 st_data := data_2000;
                 st_summary :=
                   [(("Old", "Group")%string,
                     {| total_seconds := 900; tasks := [] |})] |}
              (3801 # 2) (7602 # 4) eq_refl eq_refl)
    as (r & after & after' & again & H1 & H2 & _ & Hw & Hd & Hc & _).
  exists r, after, after'.
  split; [exact H1|]. split; [exact H2|]. split; [exact Hw|].
  split; [exact Hd|]. exact (proj1 (Hc session_1000 eq_refl)).
Defined.

Lemma cmd_start_empty_customer_refused :
  let idle := {| data_file := Some empty_data |} in
  let running := {| data_file := Some data_1000 |} in
  let r := Resolved (Some ""%string) (Some "Proj"%string) None in
  cmd_start utc_hhmm idle 1900 1900 r = (idle, [CancelledOrInvalidInput]) /\
  cmd_start utc_hhmm running 1900 1900 r
  = (running,
     [Stopped "TestCust" "TestProj" 0 15; CancelledOrInvalidInput]).
Proof. cbv zeta. split; reflexivity. Qed.

Lemma cmd_note_blank_text_appended :
  let w := {| data_file := Some data_1000 |} in
  cmd_note w [" "%string]
  = ({| data_file :=
          Some {| current :=
                    Some {| customer := "TestCust"; project := "TestProj";
                            start_timestamp := 1000;
                            notes := Some ["First note"; " "]%string |};
                  history := [] |} |},
     [NoteAdded " "]) /\
  snd (cmd_note w [" "%string]) <> [NoteCannotBeEmpty] /\
  fst (cmd_note w [" "%string]) <> w.
Proof.
  cbv zeta. split; [reflexivity|]. split; cbn; intros H; discriminate H.
Qed.

Lemma stop_current_raw_seconds_fractional :
  exists entry out,
    stop_current utc_hhmm data_1000 (2001 # 2) false
      = ({| current := None; history := [entry] |}, out, true) /\
    (raw_seconds entry == 1 # 2)%Q /\
    ~ whole (raw_seconds entry).
Proof.
  eexists. eexists. split; [reflexivity|]. cbn. split; [reflexivity|].
  intros [z Hz]. unfold Qeq in Hz. cbn in Hz. lia.
Qed.

(** ** The cases of the test suite *)

Example round_seconds_to_15min_tests :
  map round_seconds_to_15min [0; -100; 60; 900; 960; 2640; 3600]%Q
  = [0; 0; 900; 900; 1800; 2700; 3600].
Proof. reflexivity. Qed.

Example stop_current_with_timer :
  stop_current utc_hhmm data_1000 1900 true
  = ({| current := None;
        history := [{| h_customer := "TestCust"; h_project := "TestProj";
                       duration_seconds := 900; raw_seconds := 900;
                       h_notes := Some ["First note"%string];
                       start_str := "00:16"; end_str := "00:31" |}] |},
     [Stopped "TestCust" "TestProj" 0 15], true).
Proof. reflexivity. Qed.

Example stop_current_rounds_up :
  exists entry out,
    stop_current utc_hhmm data_1000 1060 false
      = ({| current := None; history := [entry] |}, out, true) /\
    duration_seconds entry = 900 /\ raw_seconds entry = 60%Q.
Proof. eexists. eexists. split; [reflexivity|]. split; reflexivity. Qed.

Example cmd_note_adds_to_current :
  cmd_note {| data_file := Some data_1000 |} ["Second"; "note"]%string
  = ({| data_file :=
          Some {| current :=
                    Some {| customer := "TestCust"; project := "TestProj";
                            start_timestamp := 1000;
                            notes := Some ["First note"; "Second note"]%string
                         |};
                  history := [] |} |},
     [NoteAdded "Second note"]).
Proof. reflexivity. Qed.

Example cmd_report_with_current :
  snd (cmd_report Py.lower {| data_file := Some data_1000 |} 1900)
  = {| sorted_items :=
         [(("TestCust", "TestProj")%string,
           {| total_seconds := 900;
              tasks := [("First note"%string, 900)] |})];
       total_day_seconds := 900;
       includes_running := true |}.
Proof. reflexivity. Qed.

Example cmd_report_case_insensitive_order :
  let e c p := {| h_customer := c; h_project := p; duration_seconds := 900;
                  raw_seconds := 900; h_notes := None;
                  start_str := "09:00"; end_str := "09:15" |} in
  map fst
    (sorted_items
       (snd (cmd_report Py.lower
               {| data_file :=
                    Some {| current := None;
                            history := [e "acme" "b"; e "Beta" "x";
                                        e "Acme" "a"; e "acme" "a"]%string |}
               |} 0)))
  = [("Acme", "a"); ("acme", "a"); ("acme", "b"); ("Beta", "x")]%string.
Proof. reflexivity. Qed.

Example cmd_report_run_with_current :
  cmd_report_run Py.lower 1900
    {| st_world := {| data_file := Some data_1000 |};
       st_data := empty_data;
       st_summary := [] |}
  = Some ({| sorted_items :=
               [(("TestCust", "TestProj")%string,
                 {| total_seconds := 900;
                    tasks := [("First note"%string, 900)] |})];
             total_day_seconds := 900;
             includes_running := true |},
          {| st_world := {| data_file := Some data_1000 |};
             st_data := data_1000;
             st_summary :=
               [(("TestCust", "TestProj")%string,
                 {| total_seconds := 900;
                    tasks := [("First note"%string, 900)] |})] |}).
Proof. reflexivity. Qed.

(** ** Duration policy: further properties *)

Lemma get_formatted_duration_eq (seconds : Z) :
  get_formatted_duration seconds = (seconds / 60 / 60, (seconds / 60) mod 60).
Proof. reflexivity. Qed.

(** X1.  [get_formatted_duration] splits any number of seconds into whole
    hours and minutes below 60, dropping less than a minute: the seconds
    lie in [[3600 h + 60 m, 3600 h + 60 m + 60)], and the hours are not
    negative when the seconds are not. *)
Theorem get_formatted_duration_decomposes (seconds : Z) :
  let h := fst (get_formatted_duration seconds) in
  let m := snd (get_formatted_duration seconds) in
  0 <= m < 60 /\
  3600 * h + 60 * m <= seconds < 3600 * h + 60 * m + 60 /\
  (0 <= seconds -> 0 <= h).
Proof.
  cbv zeta. rewrite get_formatted_duration_eq. cbn [fst snd].
  split; [|split]; [| |intros H]; Z.div_mod_to_equations; lia.
Qed.

Lemma round_seconds_to_15min_least (q : Q) (m : Z) :
  (0 < q)%Q -> (900 | m) -> (q <= inject_Z m)%Q ->
  round_seconds_to_15min q <= m.
Proof.
  intros Hq [k ->] Hle.
  destruct (round_seconds_to_15min_Q_bounds q Hq) as ([j Hj] & _ & Hlt).
  rewrite Hj in *.
  assert (H : (inject_Z (j * 900) < inject_Z (k * 900) + 900)%Q).
  { eapply Qlt_le_trans; [exact Hlt|]. now apply Qplus_le_l. }
  change 900%Q with (inject_Z 900) in H.
  rewrite <- (inject_Z_plus (k * 900) 900) in H.
  rewrite <- Zlt_Qlt in H. lia.
Qed.

(** X2.  On any number of seconds, whole or fractional,
    [round_seconds_to_15min] returns 0 when it is at most 0 and otherwise
    the least multiple of 900 that is at least it, which is less than 900
    above it. *)
Theorem round_seconds_to_15min_rational (q : Q) :
  let r := round_seconds_to_15min q in
  ((q <= 0)%Q -> r = 0) /\
  ((0 < q)%Q ->
     (900 | r) /\ (q <= inject_Z r)%Q /\ (inject_Z r < q + 900)%Q /\
     forall m, (900 | m) -> (q <= inject_Z m)%Q -> r <= m).
Proof.
  cbv zeta. split.
  - apply round_seconds_to_15min_nonpos.
  - intros Hq.
    destruct (round_seconds_to_15min_Q_bounds q Hq) as (Hd & Hge & Hlt).
    repeat split; try assumption.
    intros m Hm Hle. now apply round_seconds_to_15min_least.
Qed.

Lemma round_seconds_to_15min_billed (q : Q) : billed (round_seconds_to_15min q).
Proof.
  destruct (Qlt_le_dec 0 q) as [Hq|Hq].
  - destruct (round_seconds_to_15min_Q_bounds q Hq) as (Hd & Hge & _).
    split; [|exact Hd].
    apply Qlt_le_weak in Hq. pose proof (Qle_trans _ _ _ Hq Hge) as H.
    change 0%Q with (inject_Z 0) in H. now rewrite <- Zle_Qle in H.
  - rewrite round_seconds_to_15min_nonpos by assumption.
    split; [lia|]. exists 0. reflexivity.
Qed.

Lemma round_seconds_to_15min_mono (p q : Q) :
  (p <= q)%Q -> round_seconds_to_15min p <= round_seconds_to_15min q.
Proof.
  intros Hpq. destruct (Qlt_le_dec 0 p) as [Hp|Hp].
  - assert (Hq : (0 < q)%Q) by (eapply Qlt_le_trans; eassumption).
    destruct (round_seconds_to_15min_Q_bounds q Hq) as (Hd & Hge & _).
    apply round_seconds_to_15min_least; [assumption|assumption|].
    eapply Qle_trans; eassumption.
  - rewrite (round_seconds_to_15min_nonpos p) by assumption.
    apply round_seconds_to_15min_billed.
Qed.

(** X3.  Billing is monotone: a longer time is never billed less. *)
Theorem round_seconds_to_15min_monotone (p q : Q) :
  (p <= q)%Q -> round_seconds_to_15min p <= round_seconds_to_15min q.
Proof. exact (round_seconds_to_15min_mono p q). Qed.

Lemma round_seconds_to_15min_fixes_billed (d : Z) :
  billed d -> round_seconds_to_15min (inject_Z d) = d.
Proof.
  intros [Hd [k ->]]. destruct (Z.eq_dec k 0) as [->|Hk]; [reflexivity|].
  rewrite round_seconds_to_15min_Z_pos by lia.
  Z.div_mod_to_equations. lia.
Qed.

(** X4.  A billed duration is a fixed point of the rounding (billing what
    was billed changes nothing), and it is shown without loss:
    [get_formatted_duration] gives hours and minutes that make up exactly
    the billed seconds, the minutes being 0, 15, 30 or 45. *)
Theorem round_seconds_to_15min_shown_exactly (q : Q) :
  let r := round_seconds_to_15min q in
  let h := fst (get_formatted_duration r) in
  let m := snd (get_formatted_duration r) in
  round_seconds_to_15min (inject_Z r) = r /\
  r = 3600 * h + 60 * m /\
  0 <= h /\
  (m = 0 \/ m = 15 \/ m = 30 \/ m = 45).
Proof.
  cbv zeta. pose proof (round_seconds_to_15min_billed q) as Hb.
  split; [now apply round_seconds_to_15min_fixes_billed|].
  destruct Hb as [Hr [k Hk]]. rewrite get_formatted_duration_eq. cbn [fst snd].
  rewrite Hk in *. split; [|split]; Z.div_mod_to_equations; lia.
Qed.

(** ** Timer logic: further properties *)

Section TimerInvariants.

Variable localtime_hhmm : Q -> string.

Lemma cmd_start_refused (w : World) (now_stop now_start : Q) (r : resolution) :
  start_accepts r = false ->
  fst (cmd_start localtime_hhmm w now_stop now_start r) = w /\
  (forall c p n, r = Resolved c p n ->
     exists out, snd (cmd_start localtime_hhmm w now_stop now_start r)
                 = out ++ [CancelledOrInvalidInput]).
Proof.
  intros Hr. unfold cmd_start.
  destruct (match current (load_json w empty_data) with
            | Some _ => fst (stop_current localtime_hhmm
                               (load_json w empty_data) now_stop true)
            | None => (load_json w empty_data, [])
            end) as [data out].
  destruct r as [c p n|]; [|split; [reflexivity|discriminate]].
  cbn in Hr.
  destruct c as [[|a c]|], p as [[|b p]|]; try discriminate Hr;
    (split; [reflexivity|]; intros ? ? ? _; exists out; reflexivity).
Qed.

(** X5.  A start that is not carried out saves nothing: when the
    resolution was abandoned, or gave no customer or no project (none, or
    an empty string), [cmd_start] leaves [DATA_FILE] as it found it.  A timer
    that was running is still running, although the command has gone
    through [stop_current] and may have printed its message. *)
Theorem cmd_start_refused_saves_nothing (w : World) (now_stop now_start : Q)
    (r : resolution) :
  start_accepts r = false ->
  fst (cmd_start localtime_hhmm w now_stop now_start r) = w /\
  (forall c p n, r = Resolved c p n ->
     exists out, snd (cmd_start localtime_hhmm w now_stop now_start r)
                 = out ++ [CancelledOrInvalidInput]).
Proof. exact (cmd_start_refused w now_stop now_start r). Qed.

Lemma stop_current_history (data : Data) (now : Q) (verbose : bool) :
  exists suffix,
    history (fst (fst (stop_current localtime_hhmm data now verbose)))
    = history data ++ suffix /\
    current (fst (fst (stop_current localtime_hhmm data now verbose))) = None /\
    (List.length suffix <= 1)%nat /\
    Forall (fun e => billed (duration_seconds e)) suffix.
Proof.
  destruct (current data) as [c|] eqn:Hc.
  - destruct (stop_current_running localtime_hhmm data c now verbose Hc)
      as (entry & out & Hrun & _ & _ & _ & _ & Hdur).
    rewrite Hrun. exists [entry]. cbn. repeat split; auto.
    constructor; [|constructor]. rewrite Hdur.
    apply round_seconds_to_15min_billed.
  - unfold stop_current. rewrite Hc. exists []. cbn.
    rewrite app_nil_r. repeat split; auto.
Qed.

Lemma cmd_stop_history (w : World) (now : Q) :
  exists suffix,
    history_of (fst (cmd_stop localtime_hhmm w now)) = history_of w ++ suffix /\
    current_of (fst (cmd_stop localtime_hhmm w now)) = None /\
    (List.length suffix <= 1)%nat /\
    Forall (fun e => billed (duration_seconds e)) suffix.
Proof.
  unfold cmd_stop, history_of, current_of.
  destruct (stop_current_history (load_json w empty_data) now true)
    as (suffix & Hh & Hc & Hlen & Hb).
  destruct (stop_current localtime_hhmm (load_json w empty_data) now true)
    as [[data out] stopped] eqn:E.
  cbn [fst] in Hh, Hc.
  destruct stopped; cbn [fst].
  - exists suffix. unfold load_json at 1 3. cbn. auto.
  - unfold stop_current in E.
    destruct (current (load_json w empty_data)) eqn:Hcur.
    + cbv zeta in E. destruct (get_formatted_duration _). discriminate E.
    + exists []. rewrite app_nil_r. repeat split; auto.
Qed.

Lemma cmd_start_history (w : World) (now_stop now_start : Q) (r : resolution) :
  exists suffix,
    history_of (fst (cmd_start localtime_hhmm w now_stop now_start r))
    = history_of w ++ suffix /\
    (List.length suffix <= 1)%nat /\
    Forall (fun e => billed (duration_seconds e)) suffix.
Proof.
  destruct (start_accepts r) eqn:Hr.
  - destruct r as [c p n|]; [|discriminate Hr]. cbn in Hr.
    destruct c as [[|a c]|], p as [[|b p]|]; try discriminate Hr.
    unfold cmd_start, history_of.
    destruct (current (load_json w empty_data)) as [s|] eqn:Hcur.
    + destruct (stop_current_history (load_json w empty_data) now_stop true)
        as (suffix & Hh & _ & Hlen & Hb).
      destruct (stop_current localtime_hhmm (load_json w empty_data)
                  now_stop true) as [[data out] stopped].
      cbn [fst] in Hh. cbn. exists suffix. auto.
    + cbn. exists []. rewrite app_nil_r. repeat split; auto.
  - destruct (cmd_start_refused w now_stop now_start r Hr) as [-> _].
    exists []. rewrite app_nil_r. repeat split; auto.
Qed.

Lemma cmd_note_history (w : World) (args : list string) :
  history_of (fst (cmd_note w args)) = history_of w.
Proof.
  unfold cmd_note, history_of.
  destruct (current (load_json w empty_data)); [|reflexivity].
  destruct args; reflexivity.
Qed.

(** X6.  What the commands do to the history in [DATA_FILE].  [cmd_start]
    and [cmd_stop] leave the history they found, followed by at most one
    new entry; [cmd_note] and a run of [cmd_report] leave it as it is:
    none of these removes, reorders or rewrites a committed entry.
    [cmd_reset] is the one command that removes entries: it leaves the
    file as it is, or without any. *)
Theorem commands_append_to_history (lower : string -> string) (w : World)
    (now now' : Q) (r : resolution) (args : list string) (answer : string)
    (st : Store) :
  (exists suffix,
     history_of (fst (cmd_start localtime_hhmm w now now' r))
     = history_of w ++ suffix /\ (List.length suffix <= 1)%nat) /\
  (exists suffix,
     history_of (fst (cmd_stop localtime_hhmm w now))
     = history_of w ++ suffix /\ (List.length suffix <= 1)%nat) /\
  history_of (fst (cmd_note w args)) = history_of w /\
  (exists report after,
     cmd_report_run lower now st = Some (report, after) /\
     history_of (st_world after) = history_of (st_world st)) /\
  (fst (cmd_reset w answer) = w \/
   history_of (fst (cmd_reset w answer)) = []).
Proof.
  split; [|split; [|split; [|split]]].
  - destruct (cmd_start_history w now now' r) as (suffix & H & Hlen & _).
    now exists suffix.
  - destruct (cmd_stop_history w now) as (suffix & H & _ & Hlen & _).
    now exists suffix.
  - apply cmd_note_history.
  - rewrite cmd_report_run_spec. do 2 eexists. split; reflexivity.
  - unfold cmd_reset. cbv zeta.
    destruct (Py.lower answer =? "y")%string; [now right|now left].
Qed.

(** X7.  The commands keep the history billed: if every entry in
    [DATA_FILE] has a duration that is a non-negative multiple of 900, then
    so has every entry after [cmd_start], [cmd_stop] or [cmd_note]. *)
Theorem commands_keep_history_billed (w : World) (now now' : Q)
    (r : resolution) (args : list string) :
  well_billed (load_json w empty_data) ->
  well_billed
    (load_json (fst (cmd_start localtime_hhmm w now now' r)) empty_data) /\
  well_billed (load_json (fst (cmd_stop localtime_hhmm w now)) empty_data) /\
  well_billed (load_json (fst (cmd_note w args)) empty_data).
Proof.
  unfold well_billed. intros Hw. split; [|split].
  - destruct (cmd_start_history w now now' r) as (suffix & H & _ & Hb).
    unfold history_of in H. rewrite H. apply Forall_app. now split.
  - destruct (cmd_stop_history w now) as (suffix & H & _ & _ & Hb).
    unfold history_of in H. rewrite H. apply Forall_app. now split.
  - pose proof (cmd_note_history w args) as H.
    unfold history_of in H. now rewrite H.
Qed.

(** X8.  After [cmd_stop] no timer is running, so stopping again, or adding
    a note, is refused and changes nothing. *)
Theorem cmd_stop_then_idle (w : World) (now now' : Q) (args : list string) :
  let w' := fst (cmd_stop localtime_hhmm w now) in
  current_of w' = None /\
  cmd_stop localtime_hhmm w' now' = (w', [NoTimerRunning]) /\
  cmd_note w' args = (w', [NoTimerRunningError]).
Proof.
  cbv zeta.
  destruct (cmd_stop_history w now) as (_ & _ & Hc & _).
  unfold current_of in Hc. split; [exact Hc|]. split.
  - unfold cmd_stop at 1. unfold stop_current. rewrite Hc. reflexivity.
  - unfold cmd_note. rewrite Hc. reflexivity.
Qed.

Lemma Qmax_clamp (q : Q) :
  ((if Py.Qltb q 0 then 0 else q) == Qmax 0 q)%Q.
Proof.
  destruct (Py.Qltb q 0) eqn:E.
  - apply Qltb_true in E. symmetry. apply Q.max_l. now apply Qlt_le_weak.
  - apply Qltb_false in E. symmetry. now apply Q.max_r.
Qed.

Lemma cmd_start_accepted (w : World) (t0 t1 : Q) (cust proj : string)
    (note : option string) :
  cust <> ""%string ->
  proj <> ""%string ->
  exists history',
    fst (cmd_start localtime_hhmm w t0 t1
           (Resolved (Some cust) (Some proj) note))
    = {| data_file :=
           Some {| current :=
                     Some {| customer := cust;
                             project := proj;
                             start_timestamp := t1;
                             notes :=
                               Some (if Py.truthy note
                                     then match note with
                                          | Some n => [n]
                                          | None => []
                                          end
                                     else []) |};
                   history := history' |} |}.
Proof.
  intros Hcust Hproj.
  destruct cust as [|x cust]; [congruence|].
  destruct proj as [|y proj]; [congruence|].
  unfold cmd_start.
  destruct (match current (load_json w empty_data) with
            | Some _ => fst (stop_current localtime_hhmm
                               (load_json w empty_data) t0 true)
            | None => (load_json w empty_data, [])
            end) as [data out].
  cbn. eexists. reflexivity.
Qed.

(** X9.  Start, note, stop.  A timer started with a customer, a project
    and a note, given further notes with [cmd_note], and then stopped, is
    committed as one entry after the history the start left: it has the
    customer and the project, the notes in the order they were given, the
    elapsed time between the two clock readings (0 if the clock went back)
    and its 15-minute round-up. *)
Theorem start_note_stop (w : World) (t0 t1 t2 : Q) (cust proj : string)
    (note : option string) (a b : string) (args args' : list string) :
  cust <> ""%string ->
  proj <> ""%string ->
  let w1 := fst (cmd_start localtime_hhmm w t0 t1
                   (Resolved (Some cust) (Some proj) note)) in
  let w2 := fst (cmd_note w1 (a :: args)) in
  let w3 := fst (cmd_note w2 (b :: args')) in
  let w4 := fst (cmd_stop localtime_hhmm w3 t2) in
  exists entry,
    data_file w4
    = Some {| current := None; history := history_of w1 ++ [entry] |} /\
    h_customer entry = cust /\
    h_project entry = proj /\
    h_notes entry
    = Some ((if Py.truthy note
             then match note with Some n => [n] | None => [] end
             else [])
            ++ [Py.join " " (a :: args); Py.join " " (b :: args')]) /\
    (raw_seconds entry == Qmax 0 (t2 - t1))%Q /\
    duration_seconds entry = round_seconds_to_15min (Qmax 0 (t2 - t1)).
Proof.
  intros Hcust Hproj.
  destruct (cmd_start_accepted w t0 t1 cust proj note Hcust Hproj)
    as (history' & Hstart).
  cbv zeta. rewrite Hstart. unfold history_of, load_json. cbn.
  eexists. split; [reflexivity|]. cbn.
  split; [reflexivity|]. split; [reflexivity|]. split.
  - now rewrite <- app_assoc.
  - split.
    + apply Qmax_clamp.
    + apply round_seconds_to_15min_comp. apply Qmax_clamp.
Qed.

End TimerInvariants.

(** ** Report: sums *)

Section ReportSums.
Variable lower : string -> string.

Section DictSums.
Context {K V : Type}.
Variable eqb : K -> K -> bool.
Hypothesis eqb_eq : forall a b, eqb a b = true <-> a = b.
Variable f : V -> Z.

Lemma dict_sum_set (d : Py.dict K V) (k : K) (v : V) :
  dict_sum f (Py.set eqb d k v)
  = dict_sum f d + f v
    - match Py.get eqb d k with Some v0 => f v0 | None => 0 end.
Proof.
  unfold dict_sum. induction d as [|[k' v'] d IH]; cbn.
  - lia.
  - destruct (eqb k' k); cbn; [lia|]. rewrite IH. lia.
Qed.

Lemma In_set (d : Py.dict K V) (k k' : K) (v v' : V) :
  In (k', v') (Py.set eqb d k v) -> (k', v') = (k, v) \/ In (k', v') d.
Proof.
  induction d as [|[k0 v0] d IH]; cbn.
  - intros [H|[]]. now left.
  - destruct (eqb k0 k) eqn:E; cbn.
    + apply eqb_eq in E. subst k0. intros [H|H]; [now left|now right; right].
    + intros [H|H]; [now right; left|].
      destruct (IH H) as [H'|H']; [now left|now right; right].
Qed.
End DictSums.

Lemma fold_left_totals (items : list (Key * Group)) (a : Z) :
  fold_left (fun total item => total + total_seconds (snd item)) items a
  = a + totals_sum items.
Proof.
  unfold totals_sum. revert a.
  induction items as [|x items IH]; intros a; cbn; [lia|].
  rewrite IH. lia.
Qed.

Lemma totals_sum_Permutation (l l' : list (Key * Group)) :
  Permutation l l' -> totals_sum l = totals_sum l'.
Proof. unfold totals_sum. induction 1; cbn; lia. Qed.

Lemma totals_sum_process_entry (summary : Summary) (cust proj : string)
    (seconds : Z) (notes_list : list string) :
  totals_sum (process_entry summary cust proj seconds notes_list)
  = totals_sum summary + seconds.
Proof.
  unfold process_entry. cbv zeta.
  change totals_sum with (dict_sum (K := Key) total_seconds).
  rewrite dict_sum_set. cbn [total_seconds].
  destruct (Py.get key_eqb summary (cust, proj)); cbn; lia.
Qed.

Lemma totals_sum_process_history (summary : Summary) (h : list HistoryEntry) :
  totals_sum (process_history summary h) = totals_sum summary + sum_durations h.
Proof.
  induction h as [|e h IH] using rev_ind.
  - change (process_history summary []) with summary.
    change (sum_durations []) with 0. lia.
  - rewrite process_history_snoc, totals_sum_process_entry, IH.
    rewrite sum_durations_app.
    change (sum_durations [e]) with (duration_seconds e + 0). lia.
Qed.

Lemma total_day_seconds_sum (w : World) (now : Q) :
  total_day_seconds (snd (cmd_report lower w now))
  = sum_durations (report_entries (load_json w empty_data) now).
Proof.
  unfold cmd_report. cbn [snd total_day_seconds].
  rewrite fold_left_totals.
  rewrite (totals_sum_Permutation _ _ (sorted_Permutation _ _ _)).
  rewrite summarize_report_entries, totals_sum_process_history.
  change (totals_sum []) with 0. lia.
Qed.

(** X10.  The day's total of a report is the sum of the totals of its
    groups, and it is the sum of the [duration_seconds] of everything the
    report accounts for: every history entry, and the running timer at its
    billed duration so far. *)
Theorem cmd_report_total_day_seconds (w : World) (now : Q) :
  let report := snd (cmd_report lower w now) in
  total_day_seconds report = totals_sum (sorted_items report) /\
  total_day_seconds report
  = sum_durations (report_entries (load_json w empty_data) now).
Proof.
  cbv zeta. split; [|apply total_day_seconds_sum].
  unfold cmd_report. cbn [snd total_day_seconds sorted_items].
  rewrite fold_left_totals. lia.
Qed.

Lemma groups_add_up_process_entry (summary : Summary) (cust proj : string)
    (seconds : Z) (notes_list : list string) :
  groups_add_up summary ->
  groups_add_up (process_entry summary cust proj seconds notes_list).
Proof.
  intros Hinv k g Hin. unfold process_entry in Hin. cbv zeta in Hin.
  apply (In_set key_eqb key_eqb_eq) in Hin. destruct Hin as [Heq|Hin].
  - injection Heq as _ ->. cbn [total_seconds tasks].
    change tasks_sum with (dict_sum (K := string) (fun z : Z => z)).
    rewrite dict_sum_set.
    assert (H0 : total_seconds
                   match Py.get key_eqb summary (cust, proj) with
                   | Some g => g
                   | None => {| total_seconds := 0; tasks := [] |}
                   end
                 = dict_sum (K := string) (fun z : Z => z)
                     (tasks
                        match Py.get key_eqb summary (cust, proj) with
                        | Some g => g
                        | None => {| total_seconds := 0; tasks := [] |}
                        end)).
    { destruct (Py.get key_eqb summary (cust, proj)) as [g0|] eqn:E.
      - apply (get_Some_In key_eqb key_eqb_eq) in E. exact (Hinv _ _ E).
      - reflexivity. }
    rewrite H0.
    destruct (Py.get String.eqb _ (task_name_of notes_list)); lia.
  - exact (Hinv _ _ Hin).
Qed.

Lemma groups_add_up_process_history (h : list HistoryEntry) :
  groups_add_up (process_history [] h).
Proof.
  induction h as [|e h IH] using rev_ind.
  - intros k g [].
  - rewrite process_history_snoc. now apply groups_add_up_process_entry.
Qed.

(** X11.  In a report the details add up: the total of every group is the
    sum of the seconds of its task buckets. *)
Theorem cmd_report_group_totals_add_up (w : World) (now : Q) :
  Forall (fun item => total_seconds (snd item) = tasks_sum (tasks (snd item)))
    (sorted_items (snd (cmd_report lower w now))).
Proof.
  apply Forall_forall. intros [k g] Hin. cbn [snd].
  apply (Permutation_in _ (cmd_report_items_Permutation lower w now)) in Hin.
  rewrite summarize_report_entries in Hin.
  exact (groups_add_up_process_history _ _ _ Hin).
Qed.

(** ** Report: stopping, and the order of the lines *)

Lemma round_seconds_to_15min_clamp (q : Q) :
  round_seconds_to_15min (if Py.Qltb q 0 then 0%Q else q)
  = round_seconds_to_15min q.
Proof.
  destruct (Py.Qltb q 0) eqn:E; [|reflexivity].
  apply Qltb_true in E. symmetry.
  apply round_seconds_to_15min_nonpos. now apply Qlt_le_weak.
Qed.

Lemma summarize_after_stop (localtime_hhmm : Q -> string) (data : Data)
    (now now' : Q) :
  summarize (fst (fst (stop_current localtime_hhmm data now true))) now'
  = summarize data now /\
  current (fst (fst (stop_current localtime_hhmm data now true))) = None.
Proof.
  destruct (current data) as [c|] eqn:Hc.
  - destruct (stop_current_running localtime_hhmm data c now true Hc)
      as (entry & out & Hrun & Hcu & Hpr & Hno & Hraw & Hdur).
    rewrite Hrun. cbn [fst]. split; [|reflexivity].
    unfold summarize. rewrite Hc. cbn [current history].
    rewrite process_history_snoc. unfold entry_notes.
    rewrite Hcu, Hpr, Hno, Hdur, Hraw.
    now rewrite round_seconds_to_15min_clamp.
  - unfold stop_current. rewrite Hc. cbn [fst]. unfold summarize.
    rewrite Hc. split; reflexivity.
Qed.

(** X12.  Stopping the timer does not change what the report shows: the
    report made after [cmd_stop] (at any later time) has the groups, and
    the day's total, of the report made just before it with the same clock
    reading; only the running-timer warning is gone. *)
Theorem cmd_report_unchanged_by_stop (localtime_hhmm : Q -> string)
    (w : World) (now now' : Q) :
  let before := snd (cmd_report lower w now) in
  let after := snd (cmd_report lower (fst (cmd_stop localtime_hhmm w now)) now') in
  sorted_items after = sorted_items before /\
  total_day_seconds after = total_day_seconds before /\
  includes_running after = false.
Proof.
  cbv zeta.
  assert (Hs : summarize
                 (load_json (fst (cmd_stop localtime_hhmm w now)) empty_data)
                 now'
               = summarize (load_json w empty_data) now
               /\ current
                    (load_json (fst (cmd_stop localtime_hhmm w now))
                       empty_data) = None).
  { pose proof (summarize_after_stop localtime_hhmm (load_json w empty_data)
                  now now') as H.
    unfold cmd_stop.
    destruct (stop_current localtime_hhmm (load_json w empty_data) now true)
      as [[data out] stopped] eqn:E.
    cbn [fst] in H. destruct stopped; cbn [fst].
    - exact H.
    - unfold stop_current in E.
      destruct (current (load_json w empty_data)) eqn:Hcur.
      + cbv zeta in E. destruct (get_formatted_duration _). discriminate E.
      + injection E as <- _. unfold summarize. rewrite Hcur.
        split; reflexivity. }
  destruct Hs as [Hs Hc]. unfold cmd_report. cbn. rewrite Hs, Hc.
  repeat split.
Qed.

Section StableSort.
Context {A B : Type}.
Variable lt : B -> B -> bool.
Variable eqb : B -> B -> bool.
Variable key : A -> B.
Hypothesis eqb_eq : forall a b, eqb a b = true <-> a = b.
Hypothesis lt_irrefl : forall a, lt a a = false.

Lemma insert_filter (v : B) (x : A) (l : list A) :
  filter (fun y => eqb (key y) v) (Py.insert lt key x l)
  = filter (fun y => eqb (key y) v) (x :: l).
Proof.
  induction l as [|y l IH]; [reflexivity|].
  cbn [Py.insert]. destruct (lt (key y) (key x)) eqn:E; [|reflexivity].
  cbn [filter] in *. rewrite IH.
  destruct (eqb (key x) v) eqn:Ex, (eqb (key y) v) eqn:Ey; try reflexivity.
  apply eqb_eq in Ex, Ey. rewrite Ex, Ey, lt_irrefl in E. discriminate.
Qed.

Lemma sorted_filter (v : B) (l : list A) :
  filter (fun y => eqb (key y) v) (Py.sorted lt key l)
  = filter (fun y => eqb (key y) v) l.
Proof.
  induction l as [|x l IH]; [reflexivity|].
  cbn [Py.sorted]. rewrite insert_filter. cbn [filter]. now rewrite IH.
Qed.
End StableSort.

Lemma tuple_eqb_eq (a b : string * string) : tuple_eqb a b = true <-> a = b.
Proof. exact (key_eqb_eq a b). Qed.

Lemma tuple_ltb_irrefl (a : string * string) : tuple_ltb a a = false.
Proof.
  unfold tuple_ltb. rewrite String.eqb_refl. unfold String.ltb.
  now rewrite string_compare_refl.
Qed.

(** X13.  The sort of the report is stable: the groups whose customer and
    project are the same once lower-cased are listed in the order in which
    the summary has them, which is that of their first entries. *)
Theorem cmd_report_order_stable (w : World) (now : Q) (v : string * string) :
  filter (fun x : Key * Group => tuple_eqb (lowered lower (fst x)) v)
    (sorted_items (snd (cmd_report lower w now)))
  = filter (fun x : Key * Group => tuple_eqb (lowered lower (fst x)) v)
      (summarize (load_json w empty_data) now).
Proof.
  rewrite cmd_report_items.
  exact (sorted_filter tuple_ltb tuple_eqb (sort_key lower) tuple_eqb_eq
           tuple_ltb_irrefl v _).
Qed.

Section FirstSeen.
Context {K : Type}.
Variable eqb : K -> K -> bool.
Hypothesis eqb_eq : forall a b, eqb a b = true <-> a = b.

Lemma first_seen_snoc (l : list K) (x : K) :
  first_seen eqb (l ++ [x])
  = first_seen eqb l ++ (if existsb (eqb x) l then [] else [x]).
Proof.
  induction l as [|a l IH]; [reflexivity|].
  cbn [app first_seen existsb]. rewrite IH, filter_app.
  destruct (eqb x a) eqn:Exa.
  - apply eqb_eq in Exa. subst a. cbn [orb]. f_equal. f_equal.
    destruct (existsb (eqb x) l); [reflexivity|].
    cbn. now rewrite (proj2 (eqb_eq x x) eq_refl).
  - cbn [orb]. f_equal. f_equal.
    destruct (existsb (eqb x) l); [reflexivity|].
    cbn. destruct (eqb a x) eqn:Eax; [|reflexivity].
    apply eqb_eq in Eax. subst a.
    rewrite (proj2 (eqb_eq x x) eq_refl) in Exa. discriminate.
Qed.

Lemma existsb_keys_mem {V : Type} (d : Py.dict K V) (k : K) :
  existsb (eqb k) (Py.keys d) = Py.mem eqb d k.
Proof.
  unfold Py.mem, Py.keys. induction d as [|[k' v'] d IH]; [reflexivity|].
  cbn [map fst existsb Py.get]. rewrite IH.
  destruct (eqb k' k) eqn:E.
  - apply eqb_eq in E. subst k'. now rewrite (proj2 (eqb_eq k k) eq_refl).
  - destruct (eqb k k') eqn:E'; [|reflexivity].
    apply eqb_eq in E'. subst k'.
    rewrite (proj2 (eqb_eq k k) eq_refl) in E. discriminate.
Qed.

Lemma existsb_first_seen (l : list K) (k : K) :
  existsb (eqb k) (first_seen eqb l) = existsb (eqb k) l.
Proof.
  induction l as [|a l IH]; [reflexivity|].
  cbn [first_seen existsb]. rewrite <- IH.
  destruct (eqb k a) eqn:E; [reflexivity|]. cbn [orb]. clear IH.
  induction (first_seen eqb l) as [|b r IHr]; [reflexivity|].
  cbn [filter existsb]. destruct (eqb a b) eqn:Eab; cbn [negb existsb].
  - apply eqb_eq in Eab. subst b. rewrite E. exact IHr.
  - now rewrite IHr.
Qed.

Lemma keys_set_first_seen {V : Type} (d : Py.dict K V) (k : K) (v : V)
    (l : list K) :
  Py.keys d = first_seen eqb l ->
  Py.keys (Py.set eqb d k v) = first_seen eqb (l ++ [k]).
Proof.
  intros Hk.
  rewrite (keys_set eqb), first_seen_snoc, <- existsb_keys_mem, Hk.
  rewrite existsb_first_seen.
  destruct (existsb (eqb k) l); [now rewrite app_nil_r|reflexivity].
Qed.
End FirstSeen.

Lemma first_seen_process_history (h : list HistoryEntry) :
  in_first_seen_order (process_history [] h) h.
Proof.
  induction h as [|e h IH] using rev_ind.
  - split; [reflexivity|]. intros k g. discriminate.
  - destruct IH as [IHk IHt].
    pose proof (summarizes_process_history h) as (_ & Hnone & _).
    rewrite process_history_snoc. unfold process_entry. cbv zeta.
    change (h_customer e, h_project e) with (entry_key e).
    change (task_name_of (entry_notes e)) with (entry_label e).
    set (g0 := match Py.get key_eqb (process_history [] h) (entry_key e) with
               | Some g => g
               | None => {| total_seconds := 0; tasks := [] |}
               end).
    assert (Hg0 : Py.keys (tasks g0)
                  = first_seen String.eqb
                      (map entry_label (group_entries (entry_key e) h))).
    { subst g0.
      destruct (Py.get key_eqb (process_history [] h) (entry_key e))
        as [g|] eqn:Eg.
      - now apply IHt.
      - apply Hnone in Eg. rewrite Eg. reflexivity. }
    split.
    + rewrite map_app. apply (keys_set_first_seen key_eqb key_eqb_eq).
      exact IHk.
    + intros k g Hget. rewrite group_entries_snoc, map_app.
      destruct (key_eqb (entry_key e) k) eqn:Ek.
      * apply key_eqb_eq in Ek. subst k.
        rewrite (get_set_same key_eqb key_eqb_eq) in Hget.
        injection Hget as <-. cbn [tasks map].
        apply (keys_set_first_seen String.eqb String.eqb_eq). exact Hg0.
      * assert (Hne : entry_key e <> k).
        { intros Heq. rewrite Heq, (proj2 (key_eqb_eq k k) eq_refl) in Ek.
          discriminate. }
        rewrite (get_set_other key_eqb key_eqb_eq) in Hget by exact Hne.
        cbn [map]. rewrite app_nil_r. now apply IHt.
Qed.

(** X14.  The report lists the tasks of a group in the order in which the
    entries of the group first brought their labels (the history in order,
    then the running session), each label once; and before the sort the
    groups stand in the order in which the entries first brought their
    (customer, project) pairs. *)
Theorem cmd_report_first_seen_order (w : World) (now : Q) :
  let data := load_json w empty_data in
  let entries := report_entries data now in
  Py.keys (summarize data now) = first_seen key_eqb (map entry_key entries) /\
  Forall (fun item =>
            Py.keys (tasks (snd item))
            = first_seen String.eqb
                (map entry_label (group_entries (fst item) entries)))
    (sorted_items (snd (cmd_report lower w now))).
Proof.
  cbv zeta. rewrite summarize_report_entries.
  destruct (first_seen_process_history
              (report_entries (load_json w empty_data) now)) as [Hk Ht].
  split; [exact Hk|].
  apply Forall_forall. intros [k g] Hin. cbn [fst snd].
  apply Ht.
  apply (In_get_Some key_eqb key_eqb_eq).
  - rewrite Hk. clear. 
    induction (map entry_key (report_entries (load_json w empty_data) now))
      as [|a l IH]; [constructor|].
    cbn [first_seen]. constructor.
    + rewrite filter_In. intros [_ H].
      rewrite (proj2 (key_eqb_eq a a) eq_refl) in H. discriminate.
    + now apply NoDup_filter.
  - rewrite <- summarize_report_entries.
    apply (Permutation_in _ (cmd_report_items_Permutation lower w now)). exact Hin.
Qed.

(** ** Report: quarter hours *)

Lemma billed_add (a b : Z) : billed a -> billed b -> billed (a + b).
Proof.
  intros [Ha [x Hx]] [Hb [y Hy]]. split; [lia|].
  exists (x + y). lia.
Qed.

Lemma billed_sum_durations (l : list HistoryEntry) :
  Forall (fun e => billed (duration_seconds e)) l -> billed (sum_durations l).
Proof.
  unfold sum_durations. induction 1 as [|e l He Hl IH]; cbn [fold_right].
  - split; [lia|]. exists 0. reflexivity.
  - now apply billed_add.
Qed.

Lemma billed_filter (f : HistoryEntry -> bool) (l : list HistoryEntry) :
  Forall (fun e => billed (duration_seconds e)) l ->
  Forall (fun e => billed (duration_seconds e)) (filter f l).
Proof.
  rewrite !Forall_forall. intros H e He. apply filter_In in He. now apply H.
Qed.

Lemma billed_report_entries (data : Data) (now : Q) :
  well_billed data ->
  Forall (fun e => billed (duration_seconds e)) (report_entries data now).
Proof.
  intros H. unfold report_entries. apply Forall_app. split; [exact H|].
  destruct (current data) as [c|]; [|constructor].
  constructor; [|constructor]. apply round_seconds_to_15min_billed.
Qed.

Lemma billed_shown_exactly (d : Z) :
  billed d ->
  let (h, m) := get_formatted_duration d in
  d = 3600 * h + 60 * m /\ (m = 0 \/ m = 15 \/ m = 30 \/ m = 45).
Proof.
  intros [Hd [k Hk]]. rewrite get_formatted_duration_eq.
  rewrite Hk in *. split; Z.div_mod_to_equations; lia.
Qed.

(** X15.  A report over a history of quarter hours is in quarter hours,
    the running timer included: every bucket, every group total and the
    day's total is a non-negative multiple of 900 seconds, so the hours and
    minutes shown for the day are the whole total, with 0, 15, 30 or 45
    minutes. *)
Theorem cmd_report_in_quarter_hours (w : World) (now : Q) :
  well_billed (load_json w empty_data) ->
  let r := snd (cmd_report lower w now) in
  Forall (fun item =>
            billed (total_seconds (snd item)) /\
            Forall (fun kv => billed (snd kv)) (tasks (snd item)))
    (sorted_items r) /\
  billed (total_day_seconds r) /\
  (let (h, m) := get_formatted_duration (total_day_seconds r) in
   total_day_seconds r = 3600 * h + 60 * m /\
   (m = 0 \/ m = 15 \/ m = 30 \/ m = 45)).
Proof.
  intros Hw. cbv zeta.
  pose proof (billed_report_entries _ now Hw) as Hb.
  assert (Hday : billed (total_day_seconds (snd (cmd_report lower w now)))).
  { rewrite total_day_seconds_sum. now apply billed_sum_durations. }
  split; [|split; [exact Hday|now apply billed_shown_exactly]].
  apply Forall_forall. intros [k g] Hin. cbn [snd].
  apply (Permutation_in _ (cmd_report_items_Permutation lower w now)) in Hin.
  rewrite summarize_report_entries in Hin.
  pose proof (summarizes_members _ _
                (summarizes_process_history
                   (report_entries (load_json w empty_data) now)))
    as (_ & _ & Hg).
  destruct (Hg k g Hin) as (Htot & _ & _ & Ht).
  split.
  - rewrite Htot. apply billed_sum_durations.
    unfold group_entries. now apply billed_filter.
  - apply Forall_forall. intros [label t] Hl. cbn [snd].
    rewrite (Ht label t Hl). apply billed_sum_durations.
    unfold bucket_entries, group_entries. now apply billed_filter, billed_filter.
Qed.

End ReportSums.

(** ** Shortcuts: proofs *)

Section ShortcutFacts.
Variable lower : string -> string.
Hypothesis lower_ascii : lowers_ascii lower.

Section DictDel.
Context {K V : Type}.
Variable eqb : K -> K -> bool.
Hypothesis eqb_eq : forall a b, eqb a b = true <-> a = b.

Lemma get_del_same (d : Py.dict K V) (k : K) :
  Py.get eqb (dict_del eqb d k) k = None.
Proof.
  unfold dict_del. induction d as [|[k' v'] d IH]; [reflexivity|].
  cbn [filter fst]. destruct (eqb k' k) eqn:E; cbn [negb]; [exact IH|].
  cbn [Py.get]. now rewrite E.
Qed.

Lemma get_del_other (d : Py.dict K V) (k k' : K) :
  k <> k' -> Py.get eqb (dict_del eqb d k) k' = Py.get eqb d k'.
Proof.
  intros Hne. unfold dict_del. induction d as [|[k0 v0] d IH]; [reflexivity|].
  cbn [filter fst]. destruct (eqb k0 k) eqn:E; cbn [negb Py.get].
  - apply eqb_eq in E. subst k0.
    rewrite (eqb_neq' eqb eqb_eq k k' Hne). exact IH.
  - now rewrite IH.
Qed.

Lemma mem_get (d : Py.dict K V) (k : K) :
  Py.mem eqb d k = false <-> Py.get eqb d k = None.
Proof. unfold Py.mem. destruct (Py.get eqb d k); split; congruence. Qed.
End DictDel.

Lemma load_save_config (cw : ConfigWorld) (config default : Config) :
  load_config (save_config cw config) default = config.
Proof. reflexivity. Qed.

(** The words [cmd_shortcut] knows are not confused with one another. *)
Lemma word_neq (action word other : string) :
  lower action = word ->
  Py.isascii other = true ->
  Py.lower other <> word ->
  (action =? other)%string = false.
Proof.
  intros Ha Ho Hne. apply String.eqb_neq. intros E. apply Hne.
  rewrite <- (lower_ascii other Ho), <- E. exact Ha.
Qed.

Lemma join_no_words (words : list string) :
  match words with
  | [] => ""%string
  | _ :: _ => Py.join " " words
  end = Py.join " " words.
Proof. now destruct words. Qed.

Lemma cmd_shortcut_add (cw : ConfigWorld) (action name customer project : string)
    (words : list string) :
  lower action = "add"%string ->
  fst (cmd_shortcut lower cw (action :: name :: customer :: project :: words))
  = save_config cw
      {| customers := customers (load_config cw empty_config);
         shortcuts :=
           Some (Py.set String.eqb
                   (shortcuts_of (load_config cw empty_config))
                   (lower name)
                   {| s_customer := customer;
                      s_project := project;
                      s_note := Some (Py.join " " words) |}) |}.
Proof.
  intros Ha. unfold cmd_shortcut. cbv zeta.
  rewrite (word_neq action "add" "--complete" Ha eq_refl),
    (word_neq action "add" "pick" Ha eq_refl),
    (word_neq action "add" "list" Ha eq_refl) by discriminate.
  rewrite Ha. cbn [String.eqb Ascii.eqb Bool.eqb].
  rewrite join_no_words. reflexivity.
Qed.

Lemma cmd_shortcut_delete (cw : ConfigWorld) (action name : string)
    (rest : list string) :
  In (lower action) ["delete"; "remove"; "rm"]%string ->
  fst (cmd_shortcut lower cw (action :: name :: rest))
  = if Py.mem String.eqb (shortcuts_of (load_config cw empty_config))
         (lower name)
    then save_config cw
           {| customers := customers (load_config cw empty_config);
              shortcuts :=
                Some (dict_del String.eqb
                        (shortcuts_of (load_config cw empty_config))
                        (lower name)) |}
    else cw.
Proof.
  intros Ha. unfold cmd_shortcut. cbv zeta.
  destruct Ha as [Ha|[Ha|[Ha|[]]]]; symmetry in Ha;
    rewrite (word_neq action _ "--complete" Ha eq_refl),
      (word_neq action _ "pick" Ha eq_refl),
      (word_neq action _ "list" Ha eq_refl) by discriminate;
    rewrite Ha; cbn [String.eqb Ascii.eqb Bool.eqb orb];
    now destruct (Py.mem String.eqb _ _).
Qed.

Lemma resolve_shortcut_at (cw : ConfigWorld) (name : string)
    (extra : list string) :
  resolve_shortcut lower cw (String "@" name :: extra)
  = match Py.get String.eqb (shortcuts_of (load_config cw empty_config))
            (lower name) with
    | None => Some (Abandoned, [ShortcutNotFound (lower name)])
    | Some shortcut =>
        Some (Resolved (Some (s_customer shortcut)) (Some (s_project shortcut))
                (Some (combine_notes
                         (match s_note shortcut with
                          | Some n => n
                          | None => ""%string
                          end)
                         (Py.join " " extra))),
              [UsingShortcut (lower name)])
    end.
Proof.
  unfold resolve_shortcut. cbv zeta.
  change (String "@" name =? "-s")%string with false.
  cbn [orb startswith_at tail_of]. rewrite Ascii.eqb_refl.
  now rewrite join_no_words.
Qed.



(** X17.  Adding a shortcut changes nothing else in the configuration:
    the customers are kept, every shortcut whose name is not the lowered
    name given is kept, the shortcuts keep their order, and the lowered
    name goes last unless it replaces one. *)
Theorem shortcut_add_keeps_others (cw : ConfigWorld)
    (action name customer project : string) (words : list string) :
  lower action = "add"%string ->
  let before := load_config cw empty_config in
  let after :=
    load_config
      (fst (cmd_shortcut lower cw (action :: name :: customer :: project :: words)))
      empty_config in
  customers after = customers before /\
  (forall other, other <> lower name ->
     Py.get String.eqb (shortcuts_of after) other
     = Py.get String.eqb (shortcuts_of before) other) /\
  Py.keys (shortcuts_of after)
  = (if Py.mem String.eqb (shortcuts_of before) (lower name)
     then Py.keys (shortcuts_of before)
     else Py.keys (shortcuts_of before) ++ [lower name]).
Proof.
  intros Ha. cbv zeta. rewrite cmd_shortcut_add by exact Ha.
  rewrite load_save_config. cbn [shortcuts_of shortcuts customers].
  split; [reflexivity|]. split.
  - intros other Hne.
    apply (get_set_other String.eqb String.eqb_eq). congruence.
  - apply keys_set.
Qed.

(** X18.  A deleted shortcut is gone and only it: after
    [tt shortcut delete name] (or [remove], [rm]), [tt start @name'] finds
    no shortcut for any [name'] that [str.lower] takes where it takes
    [name]; every shortcut whose name is not the lowered name and the
    customers are as before; and when there was no shortcut of the lowered
    name the file is not written. *)
Theorem shortcut_delete_then_resolve (cw : ConfigWorld)
    (action name name' : string) (rest extra : list string) :
  In (lower action) ["delete"; "remove"; "rm"]%string ->
  lower name' = lower name ->
  let before := load_config cw empty_config in
  let cw' := fst (cmd_shortcut lower cw (action :: name :: rest)) in
  let after := load_config cw' empty_config in
  resolve_shortcut lower cw' (String "@" name' :: extra)
  = Some (Abandoned, [ShortcutNotFound (lower name)]) /\
  customers after = customers before /\
  (forall other, other <> lower name ->
     Py.get String.eqb (shortcuts_of after) other
     = Py.get String.eqb (shortcuts_of before) other) /\
  (Py.get String.eqb (shortcuts_of before) (lower name) = None ->
   cw' = cw).
Proof.
  intros Ha Hn. cbv zeta.
  rewrite resolve_shortcut_at, cmd_shortcut_delete by exact Ha. rewrite Hn.
  destruct (Py.mem String.eqb (shortcuts_of (load_config cw empty_config))
              (lower name)) eqn:Em.
  - rewrite load_save_config. cbn [shortcuts_of shortcuts customers].
    rewrite (get_del_same String.eqb).
    split; [reflexivity|]. split; [reflexivity|]. split.
    + intros other Hne.
      apply (get_del_other String.eqb String.eqb_eq). congruence.
    + intros Hnone. apply (mem_get String.eqb) in Hnone. congruence.
  - apply (mem_get String.eqb) in Em. rewrite Em.
    split; [reflexivity|]. split; [reflexivity|]. split; reflexivity.
Qed.

(** ** Starting by shortcut, listing, reset *)


Section SortedMap.
Context {A B : Type}.
Variable lt : B -> B -> bool.
Variable key : A -> B.

Lemma insert_map (x : A) (l : list A) :
  Py.insert lt (fun b => b) (key x) (map key l)
  = map key (Py.insert lt key x l).
Proof.
  induction l as [|y l IH]; [reflexivity|].
  cbn [map Py.insert]. destruct (lt (key y) (key x)); [|reflexivity].
  cbn [map]. now rewrite IH.
Qed.

Lemma sorted_map (l : list A) :
  Py.sorted lt (fun b => b) (map key l) = map key (Py.sorted lt key l).
Proof.
  induction l as [|x l IH]; [reflexivity|].
  cbn [map Py.sorted]. now rewrite IH, insert_map.
Qed.
End SortedMap.

Lemma shortcuts_sorted (d : Py.dict string Shortcut) :
  StronglySorted (fun a b : string * Shortcut => String.leb (fst a) (fst b) = true)
    (Py.sorted String.ltb fst d).
Proof.
  apply Sorted_StronglySorted.
  - intros a b c. apply string_leb_trans.
  - apply sorted_Sorted.
    + intros x y H. apply string_leb_cases. now left.
    + intros x y H. apply string_leb_le. rewrite string_compare_Gt_Lt.
      intros HL. apply string_ltb_lt in HL. congruence.
Qed.

(** X20.  The listings of the shortcuts show every shortcut once, in the
    order of the names, and write nothing: [--complete] the names, [pick]
    name, customer, project and note, [list] (or no argument) the same
    between a header and the count, or a hint when there is none. *)
Theorem cmd_shortcut_listings (cw : ConfigWorld) (rest : list string) :
  let d := shortcuts_of (load_config cw empty_config) in
  exists items,
    Permutation items d /\
    StronglySorted
      (fun a b : string * Shortcut => String.leb (fst a) (fst b) = true)
      items /\
    cmd_shortcut lower cw ("--complete"%string :: rest)
    = (cw, map (fun item => CompletionLine (fst item)) items) /\
    cmd_shortcut lower cw ("pick"%string :: rest)
    = (cw, map (fun item : string * Shortcut =>
                  PickLine (fst item) (s_customer (snd item))
                    (s_project (snd item))
                    (match s_note (snd item) with
                     | Some n => n
                     | None => ""%string
                     end)) items) /\
    cmd_shortcut lower cw ("list"%string :: rest) = cmd_shortcut lower cw [] /\
    cmd_shortcut lower cw []
    = (cw,
       match d with
       | [] => [NoShortcutsDefined]
       | _ :: _ =>
           [ShortcutsHeader]
             ++ map (fun item : string * Shortcut =>
                       ShortcutLine (fst item) (s_customer (snd item))
                         (s_project (snd item))
                         (match s_note (snd item) with
                          | Some (String _ _ as n) => Some n
                          | _ => None
                          end)) items
             ++ [ShortcutsTotal (List.length items)]
       end).
Proof.
  cbv zeta.
  exists (Py.sorted String.ltb fst
            (shortcuts_of (load_config cw empty_config))).
  split; [apply sorted_Permutation|]. split; [apply shortcuts_sorted|].
  unfold cmd_shortcut. cbv zeta. cbn [String.eqb Ascii.eqb Bool.eqb].
  split; [|split; [|split]].
  - unfold Py.keys. rewrite sorted_map, map_map. reflexivity.
  - f_equal. apply map_ext. now intros [n sc].
  - reflexivity.
  - destruct (shortcuts_of (load_config cw empty_config)) as [|x d] eqn:E.
    + reflexivity.
    + f_equal. f_equal. f_equal.
      * apply map_ext. intros [n sc]. cbn [fst snd]. f_equal.
        now destruct (s_note sc) as [[|c s]|].
      * f_equal. f_equal. symmetry.
        apply Permutation_length, sorted_Permutation.
Qed.

Lemma lower_ascii_y (c : ascii) :
  Py.lower_ascii c = "y"%char -> c = "y"%char \/ c = "Y"%char.
Proof.
  destruct c as [b0 b1 b2 b3 b4 b5 b6 b7].
  destruct b0, b1, b2, b3, b4, b5, b6, b7; vm_compute; intros H;
    try discriminate H; auto.
Qed.

Lemma lower_y (s : string) :
  Py.lower s = "y"%string <-> s = "y"%string \/ s = "Y"%string.
Proof.
  split.
  - destruct s as [|c [|c' s]]; cbn [Py.lower]; try discriminate.
    intros [= H]. destruct (lower_ascii_y c H) as [-> | ->]; auto.
  - intros [-> | ->]; reflexivity.
Qed.

(** X21.  [tt reset] deletes the day's data exactly when the answer is
    [y] or [Y]: then no timer runs, the history is empty and the report
    shows nothing; with any other answer (a blank before the letter
    included) the file is untouched. *)
Theorem cmd_reset_only_on_y (w : World) (answer : string) (now : Q) :
  let w' := fst (cmd_reset w answer) in
  ((answer = "y"%string \/ answer = "Y"%string) /\
   current_of w' = None /\ history_of w' = [] /\
   sorted_items (snd (cmd_report lower w' now)) = [] /\
   total_day_seconds (snd (cmd_report lower w' now)) = 0 /\
   includes_running (snd (cmd_report lower w' now)) = false)
  \/ (answer <> "y"%string /\ answer <> "Y"%string /\ w' = w).
Proof.
  cbv zeta. unfold cmd_reset. cbv zeta.
  destruct (Py.lower answer =? "y")%string eqn:E.
  - apply String.eqb_eq in E. left. split; [now apply lower_y|].
    repeat split.
  - apply String.eqb_neq in E. right.
    split; [|split; [|reflexivity]]; intros ->; apply E; reflexivity.
Qed.

End ShortcutFacts.

(** ** Customers and projects: proofs *)

Section AddFacts.
Variable strip : string -> string.

Lemma existsb_eqb_In (p : string) (l : list string) :
  existsb (String.eqb p) l = true <-> In p l.
Proof.
  rewrite existsb_exists. split.
  - intros (x & Hx & E). apply String.eqb_eq in E. now subst.
  - intros H. exists p. split; [exact H|apply String.eqb_refl].
Qed.

Lemma add_projects_spec (answers : list string) :
  forall projects projects' out,
    add_projects strip projects answers = Some (projects', out) ->
    (exists more, projects' = projects ++ more) /\
    (NoDup projects -> NoDup projects') /\
    (forall p, In p projects'
               <-> In p projects \/ In p (typed_projects strip answers)).
Proof.
  induction answers as [|a answers IH]; intros projects projects' out H;
    cbn [add_projects typed_projects] in *; [discriminate|].
  destruct (strip a) as [|ch s] eqn:Ea.
  - injection H as <- <-. split; [exists []; now rewrite app_nil_r|].
    split; [auto|]. intros p. cbn. tauto.
  - set (proj := String ch s) in *.
    destruct (existsb (String.eqb proj) projects) eqn:Ex.
    + apply existsb_eqb_In in Ex.
      destruct (IH _ _ _ H) as (Hm & Hnd & Hin).
      split; [exact Hm|]. split; [exact Hnd|].
      intros p. rewrite Hin. cbn [In]. split; [tauto|].
      intros [Hp|[<-|Hp]]; auto.
    + destruct (add_projects strip (projects ++ [proj]) answers)
        as [[p' o']|] eqn:Er; [|discriminate].
      injection H as <- <-.
      destruct (IH _ _ _ Er) as ([more Hm] & Hnd & Hin).
      split; [exists (proj :: more); now rewrite Hm, <- app_assoc|].
      split.
      * intros Hp. apply Hnd. apply NoDup_app; [exact Hp|repeat constructor; auto|].
        intros x Hx [<-|[]]. apply existsb_eqb_In in Hx. congruence.
      * intros p. rewrite Hin, in_app_iff. cbn [In]. tauto.
Qed.

Lemma add_projects_returns (answers : list string) :
  In ""%string (map strip answers) ->
  forall projects, add_projects strip projects answers <> None.
Proof.
  induction answers as [|a answers IH]; cbn [map In add_projects]; [tauto|].
  intros [Ha|Hin] projects.
  - rewrite Ha. discriminate.
  - destruct (strip a) as [|ch s]; [discriminate|].
    destruct (existsb _ projects); [now apply IH|].
    specialize (IH Hin (projects ++ [String ch s])).
    destruct (add_projects strip _ answers) as [[p o]|]; [discriminate|].
    contradiction.
Qed.

Lemma extends_refl (c : Customer) : extends c c.
Proof. split; [reflexivity|]. exists []. now rewrite app_nil_r. Qed.

Lemma Forall2_extends_refl (custs : list Customer) :
  Forall2 extends custs custs.
Proof. induction custs; constructor; auto using extends_refl. Qed.

Lemma set_projects_extends (custs : list Customer) (cust_name : string)
    (projects : list string) :
  (forall c, find (fun c => (c_name c =? cust_name)%string) custs = Some c ->
             exists more, projects = c_projects c ++ more) ->
  Forall2 extends custs (set_projects custs cust_name projects).
Proof.
  induction custs as [|c custs IH]; cbn [find set_projects]; intros H.
  - constructor.
  - destruct (c_name c =? cust_name)%string.
    + constructor; [|apply Forall2_extends_refl].
      split; [reflexivity|]. now apply H.
    + constructor; [apply extends_refl|]. now apply IH.
Qed.

Lemma find_set_projects (custs : list Customer) (cust_name : string)
    (projects : list string) (c : Customer) :
  find (fun c => (c_name c =? cust_name)%string) custs = Some c ->
  find (fun c => (c_name c =? cust_name)%string)
    (set_projects custs cust_name projects)
  = Some {| c_name := c_name c; c_projects := projects |}.
Proof.
  induction custs as [|c0 custs IH]; cbn [find set_projects]; [discriminate|].
  destruct (c_name c0 =? cust_name)%string eqn:E.
  - intros [= <-]. cbn [find c_name]. now rewrite E.
  - intros H. cbn [find]. rewrite E. now apply IH.
Qed.

Lemma find_app_new (custs : list Customer) (cust_name : string) :
  find (fun c => (c_name c =? cust_name)%string) custs = None ->
  find (fun c => (c_name c =? cust_name)%string)
    (custs ++ [{| c_name := cust_name; c_projects := [] |}])
  = Some {| c_name := cust_name; c_projects := [] |}.
Proof.
  induction custs as [|c0 custs IH]; cbn [find app].
  - intros _. cbn [c_name]. now rewrite String.eqb_refl.
  - destruct (c_name c0 =? cust_name)%string; [discriminate|exact IH].
Qed.

(** The customer [cmd_add] works on, and the list it is an element of. *)
Lemma cmd_add_cases (cw : ConfigWorld) (answer : string)
    (answers : list string) :
  strip answer <> ""%string ->
  exists new c,
    (new = [] \/ new = [{| c_name := strip answer; c_projects := [] |}]) /\
    find (fun c => (c_name c =? strip answer)%string)
      (customers (load_config cw empty_customers) ++ new) = Some c /\
    c_projects c
    = match find (fun c => (c_name c =? strip answer)%string)
              (customers (load_config cw empty_customers)) with
      | Some c0 => c_projects c0
      | None => []
      end /\
    forall r,
      cmd_add strip cw answer answers = Some r ->
      exists projects added,
        add_projects strip (c_projects c) answers = Some (projects, added) /\
        fst r
        = save_config cw
            {| customers :=
                 set_projects
                   (customers (load_config cw empty_customers) ++ new)
                   (strip answer) projects;
               shortcuts := shortcuts (load_config cw empty_customers) |}.
Proof.
  intros Hname. unfold cmd_add. cbv zeta.
  destruct (strip answer) as [|ch s] eqn:Ea; [congruence|].
  set (cust_name := String ch s) in *.
  destruct (find (fun c => (c_name c =? cust_name)%string)
              (customers (load_config cw empty_customers))) as [c0|] eqn:Ef.
  - exists [], c0. rewrite app_nil_r. split; [now left|].
    split; [exact Ef|]. split; [reflexivity|].
    intros r Hr.
    destruct (add_projects strip (c_projects c0) answers) as [[p a]|];
      [|discriminate].
    injection Hr as <-. exists p, a. split; reflexivity.
  - exists [{| c_name := cust_name; c_projects := [] |}],
      {| c_name := cust_name; c_projects := [] |}.
    split; [now right|]. split; [now apply find_app_new|].
    split; [reflexivity|].
    intros r Hr. cbn [c_projects] in *.
    destruct (add_projects strip [] answers) as [[p a]|]; [|discriminate].
    injection Hr as <-. exists p, a. split; reflexivity.
Qed.

(** X22.  [tt add] only adds: the shortcuts are kept, every customer
    keeps its place, its name and its projects in their order (new
    projects come after them), and at most one customer, of the name
    typed, is added, at the end.  A blank customer name leaves the file
    as it is. *)
Theorem cmd_add_only_adds (cw cw' : ConfigWorld) (answer : string)
    (answers : list string) (out : list add_message) :
  cmd_add strip cw answer answers = Some (cw', out) ->
  let before := load_config cw empty_customers in
  let after := load_config cw' empty_customers in
  shortcuts after = shortcuts before /\
  (exists new,
     (new = [] \/ new = [{| c_name := strip answer; c_projects := [] |}]) /\
     Forall2 extends (customers before ++ new) (customers after)) /\
  (strip answer = ""%string -> cw' = cw).
Proof.
  intros H. cbv zeta.
  destruct (string_dec (strip answer) "") as [Hblank|Hname].
  - unfold cmd_add in H. rewrite Hblank in H. injection H as <- _.
    split; [reflexivity|]. split; [|reflexivity].
    exists []. split; [now left|]. rewrite app_nil_r.
    apply Forall2_extends_refl.
  - destruct (cmd_add_cases cw answer answers Hname)
      as (new & c & Hnew & Hfind & _ & Hrun).
    destruct (Hrun _ H) as (projects & added & Hadd & Hw).
    cbn [fst] in Hw. subst cw'. rewrite load_save_config.
    cbn [shortcuts customers].
    split; [reflexivity|]. split; [|congruence].
    exists new. split; [exact Hnew|].
    apply set_projects_extends. intros c1 Hc1.
    rewrite Hfind in Hc1. injection Hc1 as <-.
    now destruct (add_projects_spec _ _ _ _ Hadd) as (Hm & _).
Qed.

(** X23.  When a customer name is typed and the answers end with a blank
    one, [tt add] saves: the first customer of that name then has the
    projects it had and those typed before the blank, and no project
    twice if it had none twice. *)
Theorem cmd_add_saves_projects (cw : ConfigWorld) (answer : string)
    (answers : list string) :
  strip answer <> ""%string ->
  In ""%string (map strip answers) ->
  let is_named := fun c => (c_name c =? strip answer)%string in
  let old := match find is_named
                     (customers (load_config cw empty_customers)) with
             | Some c0 => c_projects c0
             | None => []
             end in
  exists cw' out c,
    cmd_add strip cw answer answers = Some (cw', out) /\
    find is_named (customers (load_config cw' empty_customers)) = Some c /\
    (forall p, In p (c_projects c)
               <-> In p old \/ In p (typed_projects strip answers)) /\
    (NoDup old -> NoDup (c_projects c)).
Proof.
  intros Hname Hblank. cbv zeta.
  destruct (cmd_add_cases cw answer answers Hname)
    as (new & c & _ & Hfind & Hold & Hrun).
  destruct (cmd_add strip cw answer answers) as [[cw' out]|] eqn:E.
  - destruct (Hrun _ eq_refl) as (projects & added & Hadd & Hw).
    cbn [fst] in Hw. subst cw'.
    exists (save_config cw
              {| customers :=
                   set_projects
                     (customers (load_config cw empty_customers) ++ new)
                     (strip answer) projects;
                 shortcuts := shortcuts (load_config cw empty_customers) |}),
      out, {| c_name := c_name c; c_projects := projects |}.
    split; [reflexivity|]. rewrite load_save_config. cbn [customers c_projects].
    split; [now apply find_set_projects|].
    rewrite <- Hold.
    now destruct (add_projects_spec _ _ _ _ Hadd) as (_ & Hnd & Hin).
  - exfalso. unfold cmd_add in E. cbv zeta in E.
    destruct (strip answer) as [|ch s] eqn:Ea; [congruence|].
    destruct (find _ (customers (load_config cw empty_customers)));
      cbn [c_projects] in E.
    + pose proof (add_projects_returns answers Hblank (c_projects c0)) as Hr.
      destruct (add_projects strip (c_projects c0) answers) as [[p a]|];
        [discriminate|contradiction].
    + pose proof (add_projects_returns answers Hblank []) as Hr.
      destruct (add_projects strip [] answers) as [[p a]|];
        [discriminate|contradiction].
Qed.

End AddFacts.

(** ** Sample runs of the further properties *)

(** The ASCII lowering is a [lower] of which [lowers_ascii] holds. *)
Lemma lowers_ascii_lower : lowers_ascii Py.lower.
Proof. intros s _. reflexivity. Defined.

Lemma well_billed_data_day :
  well_billed (load_json {| data_file := Some data_day |} empty_data).
Proof.
  constructor; [|constructor]. split; [discriminate|]. exists 2. reflexivity.
Defined.

Lemma round_seconds_to_15min_monotone_witness :
  round_seconds_to_15min 900 <= round_seconds_to_15min (1801 # 2).
Proof.
  apply round_seconds_to_15min_monotone. discriminate.
Defined.

Lemma cmd_start_refused_saves_nothing_witness :
  fst (cmd_start utc_hhmm {| data_file := Some data_1000 |} 1900 1901
         (Resolved (Some "Acme"%string) (Some ""%string) None))
  = {| data_file := Some data_1000 |}.
Proof.
  exact (proj1 (cmd_start_refused_saves_nothing utc_hhmm
                  {| data_file := Some data_1000 |} 1900 1901
                  (Resolved (Some "Acme"%string) (Some ""%string) None)
                  eq_refl)).
Defined.

Lemma commands_keep_history_billed_witness :
  well_billed
    (load_json (fst (cmd_stop utc_hhmm {| data_file := Some data_day |} 1901))
       empty_data).
Proof.
  exact (proj1 (proj2 (commands_keep_history_billed utc_hhmm
                         {| data_file := Some data_day |} 1901 1902
                         Abandoned [] well_billed_data_day))).
Defined.

Lemma start_note_stop_witness :
  exists entry,
    data_file
      (fst (cmd_stop utc_hhmm
              (fst (cmd_note
                      (fst (cmd_note
                              (fst (cmd_start utc_hhmm
                                      {| data_file := Some data_day |}
                                      1900 1901
                                      (Resolved (Some "Acme"%string)
                                         (Some "App"%string)
                                         (Some "Plan"%string))))
                              ["Call"%string]))
                      ["Mail"; "sent"]%string))
              2000))
    = Some {| current := None;
              history :=
                history_of
                  (fst (cmd_start utc_hhmm {| data_file := Some data_day |}
                          1900 1901
                          (Resolved (Some "Acme"%string) (Some "App"%string)
                             (Some "Plan"%string))))
                  ++ [entry] |} /\
    h_notes entry = Some ["Plan"; "Call"; "Mail sent"]%string /\
    duration_seconds entry = 900.
Proof.
  destruct (start_note_stop utc_hhmm {| data_file := Some data_day |}
              1900 1901 2000 "Acme" "App" (Some "Plan"%string)
              "Call" "Mail" [] ["sent"%string])
    as (entry & Hfile & _ & _ & Hnotes & _ & Hdur);
    [discriminate|discriminate|].
  exists entry. split; [exact Hfile|]. split; [exact Hnotes|].
  rewrite Hdur. reflexivity.
Defined.

Lemma cmd_report_in_quarter_hours_witness :
  billed
    (total_day_seconds
       (snd (cmd_report Py.lower {| data_file := Some data_day |} 1901))).
Proof.
  exact (proj1 (proj2 (cmd_report_in_quarter_hours Py.lower
                         {| data_file := Some data_day |} 1901
                         well_billed_data_day))).
Defined.


Lemma shortcut_add_keeps_others_witness :
  Py.keys
    (shortcuts_of
       (load_config
          (fst (cmd_shortcut Py.lower
                  (fst (cmd_shortcut Py.lower {| config_file := None |}
                          ["add"; "daily"; "Acme"; "Mgmt"]%string))
                  ["Add"; "Review"; "Acme"; "Web"; "Code"]%string))
          empty_config))
  = ["daily"; "review"]%string.
Proof.
  exact (proj2 (proj2 (shortcut_add_keeps_others Py.lower
                         lowers_ascii_lower
                         (fst (cmd_shortcut Py.lower {| config_file := None |}
                                 ["add"; "daily"; "Acme"; "Mgmt"]%string))
                         "Add" "Review" "Acme" "Web" ["Code"%string]
                         eq_refl))).
Defined.

Lemma shortcut_delete_then_resolve_witness :
  resolve_shortcut Py.lower
    (fst (cmd_shortcut Py.lower
            (fst (cmd_shortcut Py.lower {| config_file := None |}
                    ["add"; "daily"; "Acme"; "Mgmt"]%string))
            ["RM"; "Daily"]%string))
    ["@daily"%string]
  = Some (Abandoned, [ShortcutNotFound "daily"]).
Proof.
  exact (proj1 (shortcut_delete_then_resolve Py.lower
                  lowers_ascii_lower
                  (fst (cmd_shortcut Py.lower {| config_file := None |}
                          ["add"; "daily"; "Acme"; "Mgmt"]%string))
                  "RM" "Daily" "daily" [] []
                  (or_intror (or_intror (or_introl eq_refl))) eq_refl)).
Defined.

Lemma cmd_add_only_adds_witness :
  exists new,
    (new = [] \/ new = [{| c_name := "Acme"; c_projects := [] |}]) /\
    Forall2 extends ([] ++ new)
      [{| c_name := "Acme"; c_projects := ["Web"; "App"]%string |}].
Proof.
  exact (proj1 (proj2 (cmd_add_only_adds (fun s => s)
                         {| config_file := None |} _ "Acme"
                         ["Web"; "Web"; "App"; ""]%string _ eq_refl))).
Defined.

Lemma cmd_add_saves_projects_witness :
  exists cw' out c,
    cmd_add (fun s => s) {| config_file := None |} "Acme"
      ["Web"; "Web"; "App"; ""]%string = Some (cw', out) /\
    find (fun c => (c_name c =? "Acme")%string)
      (customers (load_config cw' empty_customers)) = Some c /\
    In "App"%string (c_projects c) /\
    NoDup (c_projects c).
Proof.
  destruct (cmd_add_saves_projects (fun s => s) {| config_file := None |}
              "Acme" ["Web"; "Web"; "App"; ""]%string)
    as (cw' & out & c & Hrun & Hfind & Hin & Hnd).
  - discriminate.
  - cbn. auto.
  - exists cw', out, c. split; [exact Hrun|]. split; [exact Hfind|]. split.
    + apply Hin. right. cbn. auto.
    + apply Hnd. constructor.
Defined.
